(** * Tab: the orchestrator of a pane tree (src/cascadia/TerminalApp/Tab.cpp)

    A shallow embedding of [Tab.cpp].  The Tab's methods are translated from
    the source into a small state-and-error monad.  The [Pane] class the Tab
    delegates to is not among the sources: the operations of the pane tree are
    modelled from the specification (sections 3 and 4) and from the comments of
    [Tab.cpp] that describe them, and every such definition says so. *)

From Stdlib Require Import List String Bool ZArith QArith Lia.
Import ListNotations.

Local Open Scope Q_scope.

(** ** Opaque collaborators *)

(** [GUID]: the profile identifier, an opaque comparison key. *)
Definition GUID := nat.

(** [TermControl]: a handle on a hosted terminal control.  The control itself
    (rendering, I/O, title) lives outside the Tab. *)
Definition TermControl := nat.

Definition hstring := string.

(** [TerminalSettings]: opaque. *)
Definition TerminalSettings := nat.

(** The axis of a split.  A [Vertical] split places its children side by side
    (it divides the width), a [Horizontal] one stacks them. *)
Inductive SplitState := Vertical | Horizontal.

(** [winrt::TerminalApp::Direction]. *)
Inductive Direction := Up | Down | Left | Right.

(** [winrt::Windows::Foundation::Size], over the rationals. *)
Record Size := { Width : Q; Height : Q }.

Record Rect := { X : Q; Y : Q; W : Q; H : Q }.

(** Modelled from the spec: the constants the layout takes from configuration
    (sections 3, 4.2 and 6 name them and give no values): the minimum size per
    axis, the separator thickness, the bounds a ratio is clamped to, the
    increment by which a separator moves, and the rectangle a new tree is laid
    out in before the first resize. *)
Record Config := {
  minimumWidth : Q;
  minimumHeight : Q;
  separatorThickness : Q;
  minimumRatio : Q;
  maximumRatio : Q;
  ratioIncrement : Q;
  initialSize : Size
}.

Definition SplitState_eqb (a b : SplitState) : bool :=
  match a, b with
  | Vertical, Vertical | Horizontal, Horizontal => true
  | _, _ => false
  end.

Definition option_nat_eqb (a : option nat) (b : nat) : bool :=
  match a with
  | Some x => Nat.eqb x b
  | None => false
  end.

(** ** The pane tree *)

(** The [Pane] class (Pane.h, Pane.cpp) is missing from the sources: this
    module is modelled from the spec throughout.  Definitions that stand for
    an operation of the class or of the spec say which; the others are their
    helpers. *)
Module Pane.

(** Modelled from the spec: the [Pane] class (Pane.h, Pane.cpp) is missing.
    Section 3: a pane is a Leaf (content handle, profile identifier, the
    boolean "is last focused") or a Split (axis, ratio, exactly two owned
    children). *)
Inductive t : Type :=
| Leaf (control : TermControl) (profile : GUID) (lastFocused : bool)
| Split (axis : SplitState) (ratio : Q) (first second : t).

(** A node is addressed by the walk from the root: [false] enters the first
    child, [true] the second. *)
Definition Path := list bool.

(** Leaves in the fixed traversal order: first child before second. *)
Fixpoint leaves (p : t) : list (TermControl * GUID) :=
  match p with
  | Leaf c g _ => [(c, g)]
  | Split _ _ a b => leaves a ++ leaves b
  end.

(** The ratios of the splits, in prefix order. *)
Fixpoint ratios (p : t) : list Q :=
  match p with
  | Leaf _ _ _ => []
  | Split _ r a b => r :: ratios a ++ ratios b
  end.

Fixpoint hasFocusedLeaf (p : t) : bool :=
  match p with
  | Leaf _ _ f => f
  | Split _ _ a b => hasFocusedLeaf a || hasFocusedLeaf b
  end.

(** Modelled from the spec: [Pane::GetFocusedPane] is missing.  Section 4.1,
    FindFocusedLeaf: the Leaf marked last-focused, or none when no mark
    exists.  The leaf is returned as its address; the traversal order makes
    the answer definite. *)
Fixpoint GetFocusedPane (p : t) : option Path :=
  match p with
  | Leaf _ _ f => if f then Some [] else None
  | Split _ _ a b =>
      match GetFocusedPane a with
      | Some q => Some (false :: q)
      | None =>
          match GetFocusedPane b with
          | Some q => Some (true :: q)
          | None => None
          end
      end
  end.

(** Modelled from the spec: [Pane::GetFocusedTerminalControl] is missing.
    Tab.cpp l.37-47: nullptr if no children were marked [_lastFocused], else
    the TermControl that was last focused. *)
Fixpoint GetFocusedTerminalControl (p : t) : option TermControl :=
  match p with
  | Leaf c _ f => if f then Some c else None
  | Split _ _ a b =>
      match GetFocusedTerminalControl a with
      | Some c => Some c
      | None => GetFocusedTerminalControl b
      end
  end.

(** Modelled from the spec: [Pane::GetFocusedProfile] is missing.  Tab.cpp
    l.89-97: nullopt if no children were the last control to be focused, else
    the GUID of the profile of that control. *)
Fixpoint GetFocusedProfile (p : t) : option GUID :=
  match p with
  | Leaf _ g f => if f then Some g else None
  | Split _ _ a b =>
      match GetFocusedProfile a with
      | Some g => Some g
      | None => GetFocusedProfile b
      end
  end.

(** Modelled from the spec: [Pane::UpdateFocus] is missing.  Tab.cpp
    l.132-140: a control under this tab that is focused is marked as the last
    focused; if there are no focused panes, there is no last focused control
    afterwards.  [uiFocus] is the control that owns the keyboard focus. *)
Fixpoint UpdateFocus (uiFocus : option TermControl) (p : t) : t :=
  match p with
  | Leaf c g _ => Leaf c g (option_nat_eqb uiFocus c)
  | Split ax r a b => Split ax r (UpdateFocus uiFocus a) (UpdateFocus uiFocus b)
  end.

(** The controls of the leaves whose profile is [profile]: the ones
    [UpdateSettings] reaches (section 4.4). *)
Fixpoint controlsOfProfile (profile : GUID) (p : t) : list TermControl :=
  match p with
  | Leaf c g _ => if Nat.eqb g profile then [c] else []
  | Split _ _ a b => controlsOfProfile profile a ++ controlsOfProfile profile b
  end.

(** *** Layout (section 4.2) *)

Definition Qlt_bool (a b : Q) : bool := negb (Qle_bool b a).

Definition Qmin' (a b : Q) : Q := if Qle_bool a b then a else b.
Definition Qmax' (a b : Q) : Q := if Qle_bool a b then b else a.

Definition extent (ax : SplitState) (r : Rect) : Q :=
  match ax with
  | Vertical => W r
  | Horizontal => H r
  end.

(** Modelled from the spec: section 4.2, ComputeLayout.  A Split divides its
    rectangle along its axis: the separator thickness is removed from the
    extent, the first child gets [ratio * extent], the second the
    remainder. *)
Definition childRects (sep : Q) (ax : SplitState) (ratio : Q) (r : Rect)
  : Rect * Rect :=
  let avail := extent ax r - sep in
  let e1 := ratio * avail in
  let e2 := avail - e1 in
  match ax with
  | Vertical =>
      ({| X := X r; Y := Y r; W := e1; H := H r |},
       {| X := X r + e1 + sep; Y := Y r; W := e2; H := H r |})
  | Horizontal =>
      ({| X := X r; Y := Y r; W := W r; H := e1 |},
       {| X := X r; Y := Y r + e1 + sep; W := W r; H := e2 |})
  end.

(** Modelled from the spec: section 4.2, ComputeLayout, restricted to the
    leaves: each leaf's address with its rectangle, in traversal order. *)
Fixpoint ComputeLayout (sep : Q) (p : t) (r : Rect) : list (Path * Rect) :=
  match p with
  | Leaf _ _ _ => [([], r)]
  | Split ax ratio a b =>
      let rs := childRects sep ax ratio r in
      map (fun e => (false :: fst e, snd e)) (ComputeLayout sep a (fst rs))
      ++ map (fun e => (true :: fst e, snd e)) (ComputeLayout sep b (snd rs))
  end.

(** The rectangle of the node at [path], by the same division. *)
Fixpoint rectAt (sep : Q) (path : Path) (p : t) (r : Rect) : option Rect :=
  match path, p with
  | [], _ => Some r
  | b :: rest, Split ax ratio a c =>
      let rs := childRects sep ax ratio r in
      if b then rectAt sep rest c (snd rs) else rectAt sep rest a (fst rs)
  | _ :: _, Leaf _ _ _ => None
  end.

Definition minimumExtent (cfg : Config) (ax : SplitState) : Q :=
  match ax with
  | Vertical => minimumWidth cfg
  | Horizontal => minimumHeight cfg
  end.

(** Modelled from the spec: section 4.1, CanSplit, and the scenario of
    section 8: a rectangle can host two children meeting the minimum iff its
    extent on the axis is at least [2 * minimum + separatorThickness]. *)
Definition fits (cfg : Config) (ax : SplitState) (r : Rect) : bool :=
  Qle_bool (2 * minimumExtent cfg ax + separatorThickness cfg) (extent ax r).

(** *** Structural mutation (section 4.1) *)

(** Modelled from the spec: section 4.1, Split.  The Leaf at [path] becomes a
    Split with ratio 0.5, first child the old content, second child the new
    content; the new Leaf becomes the focus target.  [None]: [path] does not
    address a Leaf. *)
Fixpoint SplitLeaf (path : Path) (ax : SplitState) (profile : GUID)
  (control : TermControl) (p : t) : option t :=
  match path, p with
  | [], Leaf c g _ =>
      Some (Split ax (1 # 2) (Leaf c g false) (Leaf control profile true))
  | false :: rest, Split ax' r a b =>
      match SplitLeaf rest ax profile control a with
      | Some a' => Some (Split ax' r a' b)
      | None => None
      end
  | true :: rest, Split ax' r a b =>
      match SplitLeaf rest ax profile control b with
      | Some b' => Some (Split ax' r a b')
      | None => None
      end
  | _, _ => None
  end.

(** Marks the first Leaf in traversal order. *)
Fixpoint focusFirst (p : t) : t :=
  match p with
  | Leaf c g _ => Leaf c g true
  | Split ax r a b => Split ax r (focusFirst a) b
  end.

(** Modelled from the spec: section 4.1, Close, the sibling-focus policy: the
    sibling's own previously marked focus, defaulting to its first Leaf in
    traversal order. *)
Definition inheritFocus (sibling : t) : t :=
  if hasFocusedLeaf sibling then sibling else focusFirst sibling.

Definition isFocusedLeaf (p : t) : bool :=
  match p with
  | Leaf _ _ f => f
  | Split _ _ _ _ => false
  end.

(** What is left of a subtree once a Leaf below it is removed. *)
Inductive Removal :=
| NotFound               (* the address names no Leaf *)
| Vanished               (* the subtree was the Leaf itself *)
| Replaced (p : t).      (* the subtree that takes its place *)

(** Modelled from the spec: section 4.1, Close.  Removes the Leaf at [path].
    The target's sibling replaces the parent Split (in the grandparent, or as
    the new root); if the closed Leaf held focus, the sibling inherits it. *)
Fixpoint Close (path : Path) (p : t) : Removal :=
  match path, p with
  | [], Leaf _ _ _ => Vanished
  | b :: rest, Split ax r a c =>
      let child := if b then c else a in
      let sibling := if b then a else c in
      match Close rest child with
      | NotFound => NotFound
      | Vanished =>
          Replaced (if isFocusedLeaf child then inheritFocus sibling else sibling)
      | Replaced child' =>
          Replaced (if b then Split ax r a child' else Split ax r child' c)
      end
  | _, _ => NotFound
  end.

(** *** Moving a separator (section 4.2) *)

Definition axisOf (d : Direction) : SplitState :=
  match d with
  | Left | Right => Vertical
  | Up | Down => Horizontal
  end.

(** Whether the separator of a Split lies on side [d] of the child entered by
    [b]: the first child has it to its right (or below), the second to its
    left (or above). *)
Definition onSide (d : Direction) (b : bool) : bool :=
  match d with
  | Right | Down => negb b
  | Left | Up => b
  end.

Definition clamp (lo hi x : Q) : Q :=
  if Qle_bool x lo then lo else if Qle_bool hi x then hi else x.

(** The ratio after the separator moved one increment toward [d], clamped to
    the configured bounds. *)
Definition moved (cfg : Config) (d : Direction) (ratio : Q) : Q :=
  clamp (minimumRatio cfg) (maximumRatio cfg)
    match d with
    | Right | Down => ratio + ratioIncrement cfg
    | Left | Up => ratio - ratioIncrement cfg
    end.

(** Modelled from the spec: section 4.2, ResizeSeparator.  The nearest
    ancestor Split of the Leaf at [path] whose axis matches the direction and
    whose boundary lies on the requested side of the Leaf gets its ratio
    adjusted.  [None]: no such ancestor. *)
Fixpoint ResizeSeparator (cfg : Config) (path : Path) (d : Direction) (p : t)
  : option t :=
  match path, p with
  | b :: rest, Split ax r a c =>
      match ResizeSeparator cfg rest d (if b then c else a) with
      | Some child' =>
          Some (if b then Split ax r a child' else Split ax r child' c)
      | None =>
          if SplitState_eqb ax (axisOf d) && onSide d b
          then Some (Split ax (moved cfg d r) a c)
          else None
      end
  | _, _ => None
  end.

(** *** Directional navigation (section 4.3) *)

Fixpoint pathEqb (p q : Path) : bool :=
  match p, q with
  | [], [] => true
  | a :: p', b :: q' => Bool.eqb a b && pathEqb p' q'
  | _, _ => false
  end.

(** The intervals [a1, a2] and [b1, b2] overlap by a nonzero amount. *)
Definition overlaps (a1 a2 b1 b2 : Q) : bool :=
  Qlt_bool (Qmax' a1 b1) (Qmin' a2 b2).

(** Modelled from the spec: section 4.3.  A candidate is eligible if it lies
    on the requested side of the focused rectangle's corresponding edge and
    the projections onto the perpendicular axis overlap. *)
Definition eligible (d : Direction) (foc cand : Rect) : bool :=
  match d with
  | Right =>
      Qle_bool (X foc + W foc) (X cand)
      && overlaps (Y foc) (Y foc + H foc) (Y cand) (Y cand + H cand)
  | Left =>
      Qle_bool (X cand + W cand) (X foc)
      && overlaps (Y foc) (Y foc + H foc) (Y cand) (Y cand + H cand)
  | Down =>
      Qle_bool (Y foc + H foc) (Y cand)
      && overlaps (X foc) (X foc + W foc) (X cand) (X cand + W cand)
  | Up =>
      Qle_bool (Y cand + H cand) (Y foc)
      && overlaps (X foc) (X foc + W foc) (X cand) (X cand + W cand)
  end.

Definition edgeDistance (d : Direction) (foc cand : Rect) : Q :=
  match d with
  | Right => X cand - (X foc + W foc)
  | Left => X foc - (X cand + W cand)
  | Down => Y cand - (Y foc + H foc)
  | Up => Y foc - (Y cand + H cand)
  end.

(** The squared distance between the centres: it orders rectangles as the
    Euclidean distance does. *)
Definition centreDistance2 (a b : Rect) : Q :=
  let dx := (X a + W a / 2) - (X b + W b / 2) in
  let dy := (Y a + H a / 2) - (Y b + H b / 2) in
  dx * dx + dy * dy.

(** [a] is a strictly better candidate than [b]. *)
Definition closer (d : Direction) (foc a b : Rect) : bool :=
  Qlt_bool (edgeDistance d foc a) (edgeDistance d foc b)
  || (Qeq_bool (edgeDistance d foc a) (edgeDistance d foc b)
      && Qlt_bool (centreDistance2 foc a) (centreDistance2 foc b)).

Fixpoint nearest (d : Direction) (foc : Rect) (cands : list (Path * Rect))
  : option (Path * Rect) :=
  match cands with
  | [] => None
  | e :: rest =>
      match nearest d foc rest with
      | Some e' => if closer d foc (snd e') (snd e) then Some e' else Some e
      | None => Some e
      end
  end.

(** The Leaf rectangles other than the focused one that are eligible. *)
Definition candidates (sep : Q) (p : t) (r : Rect) (focused : Path)
  (foc : Rect) (d : Direction) : list (Path * Rect) :=
  filter (fun e => negb (pathEqb (fst e) focused) && eligible d foc (snd e))
    (ComputeLayout sep p r).

(** Modelled from the spec: section 4.3, Navigate.  [None] when the focused
    address is not in the tree or no candidate is eligible. *)
Definition Navigate (sep : Q) (p : t) (r : Rect) (focused : Path)
  (d : Direction) : option Path :=
  match rectAt sep focused p r with
  | None => None
  | Some foc => option_map fst (nearest d foc (candidates sep p r focused foc d))
  end.

Fixpoint clearFocus (p : t) : t :=
  match p with
  | Leaf c g _ => Leaf c g false
  | Split ax r a b => Split ax r (clearFocus a) (clearFocus b)
  end.

(** The focus token moves to the Leaf at [path]. *)
Fixpoint setFocus (path : Path) (p : t) : t :=
  match path, p with
  | [], Leaf c g _ => Leaf c g true
  | false :: rest, Split ax r a b => Split ax r (setFocus rest a) (clearFocus b)
  | true :: rest, Split ax r a b => Split ax r (clearFocus a) (setFocus rest b)
  | _, _ => p
  end.

Fixpoint controlAt (path : Path) (p : t) : option TermControl :=
  match path, p with
  | [], Leaf c _ _ => Some c
  | false :: rest, Split _ _ a _ => controlAt rest a
  | true :: rest, Split _ _ _ b => controlAt rest b
  | _, _ => None
  end.

End Pane.

(** ** The Tab's state and its surroundings *)

(** The callbacks subscribed to the root pane's Closed event.  Tab::Tab
    (l.19-21) subscribes one: the lambda that invokes the Tab's own
    [_closedHandlers]. *)
Inductive Callback := InvokeTabClosedHandlers.

(** Modelled from the spec: the pane tree instance the Tab owns.  The tree is
    empty once its last Leaf closed (section 4.1); it keeps the rectangle it
    was last laid out in (section 4.2, Resize) and the subscribers of its
    Closed event. *)
Record Tree := {
  root : option Pane.t;
  size : Size;
  ClosedSubscribers : list Callback
}.

(** [Microsoft::UI::Xaml::Controls::TabViewItem], the fields the Tab sets. *)
Record TabViewItem := {
  FontSize : Z;
  Icon : option hstring;   (* GetColoredIcon of this path *)
  Header : hstring
}.

(** The lambdas the Tab hands to [Dispatcher().RunAsync]. *)
Inductive UiAction :=
| ReloadIcon                                   (* l.156-158, captures [this] *)
| SetHeader (text : hstring)                   (* l.184-186, captures [text] *)
| ScrollViewport (control : TermControl) (delta : Z).   (* l.200-203 *)

(** Calls received by the hosted controls; [GetScrollOffset] with the offset
    the control answered. *)
Inductive ControlCall :=
| Focus (control : TermControl)
| GetScrollOffset (control : TermControl) (offset : Z)
| KeyboardScrollViewport (control : TermControl) (viewTop : Z)
| ApplySettings (control : TermControl) (settings : TerminalSettings).

(** [int]: 32 bits, two's complement.  [wrapInt] brings a sum back into
    range, [addInt] is [+] on [int] with its wrap-around. *)
Definition INT_MAX : Z := 2147483647.
Definition INT_MIN : Z := -2147483648.

Definition wrapInt (z : Z) : Z :=
  ((z + 2147483648) mod 4294967296 - 2147483648)%Z.

Definition addInt (a b : Z) : Z := wrapInt (a + b)%Z.

Record State := {
  (* the fields of the Tab *)
  _rootPane : Tree;
  _tabViewItem : TabViewItem;
  _focused : bool;
  _lastIconPath : hstring;
  (* the surroundings the Tab acts on *)
  uiFocus : option TermControl;      (* the control owning the keyboard focus *)
  dispatcher : list UiAction;        (* the queue of RunAsync *)
  controlCalls : list ControlCall;   (* calls made on the controls, oldest first *)
  scrollOffset : TermControl -> Z;   (* what [GetScrollOffset] answers, an int *)
  closedLog : list (option Pane.t)   (* deliveries of the Tab's Closed event,
                                        each with the tree its observers saw *)
}.

Definition set_rootPane (tr : Tree) (s : State) : State :=
  {| _rootPane := tr; _tabViewItem := _tabViewItem s; _focused := _focused s;
     _lastIconPath := _lastIconPath s; uiFocus := uiFocus s;
     dispatcher := dispatcher s; controlCalls := controlCalls s;
     scrollOffset := scrollOffset s; closedLog := closedLog s |}.

Definition set_root (r : option Pane.t) (s : State) : State :=
  set_rootPane {| root := r; size := size (_rootPane s);
                  ClosedSubscribers := ClosedSubscribers (_rootPane s) |} s.

Definition set_size (sz : Size) (s : State) : State :=
  set_rootPane {| root := root (_rootPane s); size := sz;
                  ClosedSubscribers := ClosedSubscribers (_rootPane s) |} s.

Definition set_tabViewItem (v : TabViewItem) (s : State) : State :=
  {| _rootPane := _rootPane s; _tabViewItem := v; _focused := _focused s;
     _lastIconPath := _lastIconPath s; uiFocus := uiFocus s;
     dispatcher := dispatcher s; controlCalls := controlCalls s;
     scrollOffset := scrollOffset s; closedLog := closedLog s |}.

Definition set_focused (b : bool) (s : State) : State :=
  {| _rootPane := _rootPane s; _tabViewItem := _tabViewItem s; _focused := b;
     _lastIconPath := _lastIconPath s; uiFocus := uiFocus s;
     dispatcher := dispatcher s; controlCalls := controlCalls s;
     scrollOffset := scrollOffset s; closedLog := closedLog s |}.

Definition set_lastIconPath (p : hstring) (s : State) : State :=
  {| _rootPane := _rootPane s; _tabViewItem := _tabViewItem s;
     _focused := _focused s; _lastIconPath := p; uiFocus := uiFocus s;
     dispatcher := dispatcher s; controlCalls := controlCalls s;
     scrollOffset := scrollOffset s; closedLog := closedLog s |}.

Definition set_uiFocus (c : option TermControl) (s : State) : State :=
  {| _rootPane := _rootPane s; _tabViewItem := _tabViewItem s;
     _focused := _focused s; _lastIconPath := _lastIconPath s; uiFocus := c;
     dispatcher := dispatcher s; controlCalls := controlCalls s;
     scrollOffset := scrollOffset s; closedLog := closedLog s |}.

Definition set_dispatcher (q : list UiAction) (s : State) : State :=
  {| _rootPane := _rootPane s; _tabViewItem := _tabViewItem s;
     _focused := _focused s; _lastIconPath := _lastIconPath s;
     uiFocus := uiFocus s; dispatcher := q; controlCalls := controlCalls s;
     scrollOffset := scrollOffset s; closedLog := closedLog s |}.

Definition set_controlCalls (l : list ControlCall) (s : State) : State :=
  {| _rootPane := _rootPane s; _tabViewItem := _tabViewItem s;
     _focused := _focused s; _lastIconPath := _lastIconPath s;
     uiFocus := uiFocus s; dispatcher := dispatcher s; controlCalls := l;
     scrollOffset := scrollOffset s; closedLog := closedLog s |}.

Definition set_scrollOffset (f : TermControl -> Z) (s : State) : State :=
  {| _rootPane := _rootPane s; _tabViewItem := _tabViewItem s;
     _focused := _focused s; _lastIconPath := _lastIconPath s;
     uiFocus := uiFocus s; dispatcher := dispatcher s;
     controlCalls := controlCalls s; scrollOffset := f;
     closedLog := closedLog s |}.

Definition set_closedLog (l : list (option Pane.t)) (s : State) : State :=
  {| _rootPane := _rootPane s; _tabViewItem := _tabViewItem s;
     _focused := _focused s; _lastIconPath := _lastIconPath s;
     uiFocus := uiFocus s; dispatcher := dispatcher s;
     controlCalls := controlCalls s; scrollOffset := scrollOffset s;
     closedLog := l |}.

(** ** The monad of the Tab's methods: state, and the two ways a call ends
    early *)

Inductive Error :=
| NullDereference     (* a method called through a null reference *)
| InvalidOperation.   (* section 7 *)

Inductive Result (A : Type) :=
| Ok (a : A)
| Failed (e : Error).
Arguments Ok {A} a.
Arguments Failed {A} e.

Definition M (A : Type) : Type := State -> Result A * State.

Definition ret {A : Type} (a : A) : M A := fun s => (Ok a, s).

Definition bind {A B : Type} (m : M A) (k : A -> M B) : M B :=
  fun s =>
    match m s with
    | (Ok a, s') => k a s'
    | (Failed e, s') => (Failed e, s')
    end.

Definition fail {A : Type} (e : Error) : M A := fun s => (Failed e, s).

Definition get : M State := fun s => (Ok s, s).

Definition modify (f : State -> State) : M unit := fun s => (Ok tt, f s).

Declare Scope tab_scope.
Delimit Scope tab_scope with tab.
Notation "x <- m ;; k" := (bind m (fun x => k))
  (at level 100, m at next level, right associativity) : tab_scope.
Notation "m ;; k" := (bind m (fun _ => k))
  (at level 100, right associativity) : tab_scope.
Local Open Scope tab_scope.

(** [_tabViewItem.Dispatcher().RunAsync(priority, lambda)]: the lambda is
    queued, not run. *)
Definition RunAsync (a : UiAction) : M unit :=
  modify (fun s => set_dispatcher (dispatcher s ++ [a]) s).

(** [control.Focus(FocusState::Programmatic)]: the control receives the call
    and owns the keyboard focus. *)
Definition Control_Focus (c : TermControl) : M unit :=
  modify (fun s => set_uiFocus (Some c) (set_controlCalls (controlCalls s ++ [Focus c]) s)).

(** ** The methods of the root pane, as the Tab calls them *)

(** The methods [Tab.cpp] calls through [_rootPane].  Their bodies are in the
    missing Pane.cpp: each is modelled from the spec, on the functions of
    [Pane] above, and acts on the Tab's state and its surroundings. *)
Module RootPane.

Import Pane.

(** The rectangle the tree is laid out in. *)
Definition rect (tr : Tree) : Rect :=
  {| X := 0; Y := 0; W := Width (size tr); H := Height (size tr) |}.

Definition focusedPane (tr : Tree) : option Path :=
  match root tr with
  | Some p => Pane.GetFocusedPane p
  | None => None
  end.

Definition focusedControl (tr : Tree) : option TermControl :=
  match root tr with
  | Some p => Pane.GetFocusedTerminalControl p
  | None => None
  end.

(** Modelled from the spec: [Pane::GetFocusedPane] is missing; section 4.1,
    FindFocusedLeaf: none if the tree is empty or no mark exists. *)
Definition GetFocusedPane : M (option Path) :=
  s <- get ;; ret (focusedPane (_rootPane s)).

(** Modelled from the spec: [Pane::GetFocusedTerminalControl] is missing;
    Tab.cpp l.37-47. *)
Definition GetFocusedTerminalControl : M (option TermControl) :=
  s <- get ;; ret (focusedControl (_rootPane s)).

(** Modelled from the spec: [Pane::GetFocusedProfile] is missing; Tab.cpp
    l.89-97. *)
Definition GetFocusedProfile : M (option GUID) :=
  s <- get ;;
  ret match root (_rootPane s) with
      | Some p => Pane.GetFocusedProfile p
      | None => None
      end.

(** Modelled from the spec: [Pane::UpdateFocus] is missing; Tab.cpp
    l.132-140. *)
Definition UpdateFocus : M unit :=
  modify (fun s =>
    set_root (option_map (Pane.UpdateFocus (uiFocus s)) (root (_rootPane s))) s).

(** Modelled from the spec: [Pane::UpdateSettings] is missing; section 4.4:
    applies to every Leaf whose stored profile identifier equals [profile],
    no-op for the others. *)
Definition UpdateSettings (settings : TerminalSettings) (profile : GUID)
  : M unit :=
  modify (fun s =>
    match root (_rootPane s) with
    | Some p =>
        set_controlCalls
          (controlCalls s
           ++ map (fun c => ApplySettings c settings) (controlsOfProfile profile p)) s
    | None => s
    end).

(** Modelled from the spec: section 4.1, CanSplit: whether the rectangle of
    the focused Leaf can host two children meeting the minimum. *)
Definition canSplit (cfg : Config) (ax : SplitState) (tr : Tree) : bool :=
  match root tr with
  | Some p =>
      match Pane.GetFocusedPane p with
      | Some leaf =>
          match rectAt (separatorThickness cfg) leaf p (rect tr) with
          | Some r => fits cfg ax r
          | None => false
          end
      | None => false
      end
  | None => false
  end.

Definition CanSplit (cfg : Config) (ax : SplitState) : M bool :=
  s <- get ;; ret (canSplit cfg ax (_rootPane s)).

(** Modelled from the spec: [Pane::SplitVertical] and [Pane::SplitHorizontal]
    are missing; section 4.1, Split: fails with InvalidOperation if CanSplit
    is false, else splits the focused Leaf and returns the handle of the new
    Leaf. *)
Definition SplitFocused (cfg : Config) (ax : SplitState) (profile : GUID)
  (control : TermControl) : M Path :=
  s <- get ;;
  if canSplit cfg ax (_rootPane s) then
    match root (_rootPane s), focusedPane (_rootPane s) with
    | Some p, Some leaf =>
        match SplitLeaf leaf ax profile control p with
        | Some p' => modify (set_root (Some p')) ;; ret (leaf ++ [true])
        | None => fail InvalidOperation
        end
    | _, _ => fail InvalidOperation
    end
  else fail InvalidOperation.

Definition CanSplitVertical (cfg : Config) : M bool := CanSplit cfg Vertical.
Definition CanSplitHorizontal (cfg : Config) : M bool := CanSplit cfg Horizontal.
Definition SplitVertical (cfg : Config) := SplitFocused cfg Vertical.
Definition SplitHorizontal (cfg : Config) := SplitFocused cfg Horizontal.

Definition invoke (cb : Callback) : M unit :=
  match cb with
  | InvokeTabClosedHandlers =>
      (* Tab.cpp l.20: [_closedHandlers()] *)
      modify (fun s => set_closedLog (closedLog s ++ [root (_rootPane s)]) s)
  end.

Fixpoint invokeAll (cbs : list Callback) : M unit :=
  match cbs with
  | [] => ret tt
  | cb :: rest => invoke cb ;; invokeAll rest
  end.

(** The Closed event of the root pane is raised. *)
Definition raiseClosed : M unit :=
  s <- get ;; invokeAll (ClosedSubscribers (_rootPane s)).

(** Modelled from the spec: [Pane::Close] is missing; section 4.1, Close, and
    section 4.4: if the target was the root the tree becomes empty and the
    closed notification fires, after the structural change; an address that
    names no Leaf is a no-op (section 7, NotFound). *)
Definition Close (leaf : Path) : M unit :=
  s <- get ;;
  match root (_rootPane s) with
  | Some p =>
      match Pane.Close leaf p with
      | NotFound => ret tt
      | Vanished => modify (set_root None) ;; raiseClosed
      | Replaced p' => modify (set_root (Some p'))
      end
  | None => ret tt
  end.

(** Modelled from the spec: [Pane::ResizeContent] is missing; section 4.2,
    Resize: the layout is recomputed for the new rectangle; rectangles are
    derived, so only the rectangle the tree is laid out in is stored. *)
Definition ResizeContent (newSize : Size) : M unit :=
  modify (set_size newSize).

(** Modelled from the spec: [Pane::ResizePane] is missing; section 4.2,
    ResizeSeparator: a no-op if no ancestor matches. *)
Definition ResizePane (cfg : Config) (direction : Direction) : M unit :=
  s <- get ;;
  match root (_rootPane s), focusedPane (_rootPane s) with
  | Some p, Some leaf =>
      match ResizeSeparator cfg leaf direction p with
      | Some p' => modify (set_root (Some p'))
      | None => ret tt
      end
  | _, _ => ret tt
  end.

(** The Leaf navigation resolves to, if any. *)
Definition navigate (cfg : Config) (direction : Direction) (tr : Tree)
  : option Path :=
  match root tr, focusedPane tr with
  | Some p, Some leaf =>
      Navigate (separatorThickness cfg) p (rect tr) leaf direction
  | _, _ => None
  end.

(** Modelled from the spec: [Pane::NavigateFocus] is missing; sections 4.3
    and 4.4, Navigate: on success the focus token moves to the resolved Leaf
    and focus is transferred to its content surface; no result is a no-op. *)
Definition NavigateFocus (cfg : Config) (direction : Direction) : M unit :=
  s <- get ;;
  match root (_rootPane s), navigate cfg direction (_rootPane s) with
  | Some p, Some target =>
      modify (set_root (Some (setFocus target p))) ;;
      match controlAt target p with
      | Some c => Control_Focus c
      | None => ret tt
      end
  | _, _ => ret tt
  end.

End RootPane.

(** ** Tab.cpp *)

Module Tab.

(** [static const int TabViewFontSize = 12;] *)
Definition TabViewFontSize : Z := 12.

(** [Tab::_MakeTabViewItem] (l.26-30): a fresh item with the font size set. *)
Definition _MakeTabViewItem : TabViewItem :=
  {| FontSize := TabViewFontSize; Icon := None; Header := EmptyString |}.

(** [Tab::Tab] (l.15-24): the root pane is one Leaf, constructed with
    [lastFocused = true]; the Tab subscribes to its Closed event; the tab view
    item is made.  The Tab starts unfocused, with an empty last icon path. *)
Definition Tab (cfg : Config) (profile : GUID) (control : TermControl) : State :=
  {| _rootPane := {| root := Some (Pane.Leaf control profile true);
                     size := initialSize cfg;
                     ClosedSubscribers := [InvokeTabClosedHandlers] |};
     _tabViewItem := _MakeTabViewItem;
     _focused := false;
     _lastIconPath := EmptyString;
     uiFocus := None;
     dispatcher := [];
     controlCalls := [];
     scrollOffset := fun _ => 0%Z;
     closedLog := [] |}.

(** [Tab::GetRootElement] (l.32-35) hands out the root pane's XAML element;
    the embedding has no XAML tree and leaves the method out. *)

(** [Tab::GetFocusedTerminalControl] (l.48-51). *)
Definition GetFocusedTerminalControl : M (option TermControl) :=
  RootPane.GetFocusedTerminalControl.

(** [Tab::GetTabViewItem] (l.53-56). *)
Definition GetTabViewItem : M TabViewItem :=
  s <- get ;; ret (_tabViewItem s).

(** [Tab::IsFocused] (l.66-69). *)
Definition IsFocused : M bool :=
  s <- get ;; ret (_focused s).

(** [Tab::_Focus] (l.121-130). *)
Definition _Focus : M unit :=
  modify (set_focused true) ;;
  lastFocusedControl <- RootPane.GetFocusedTerminalControl ;;
  match lastFocusedControl with
  | Some c => Control_Focus c
  | None => ret tt
  end.

(** [Tab::SetFocused] (l.79-87). *)
Definition SetFocused (focused : bool) : M unit :=
  modify (set_focused focused) ;;
  s <- get ;;
  if _focused s then _Focus else ret tt.

(** [Tab::GetFocusedProfile] (l.98-101). *)
Definition GetFocusedProfile : M (option GUID) :=
  RootPane.GetFocusedProfile.

(** [Tab::UpdateSettings] (l.110-113). *)
Definition UpdateSettings (settings : TerminalSettings) (profile : GUID)
  : M unit :=
  RootPane.UpdateSettings settings profile.

(** [Tab::UpdateFocus] (l.141-144). *)
Definition UpdateFocus : M unit :=
  RootPane.UpdateFocus.

(** [Tab::UpdateIcon] (l.146-159). *)
Definition UpdateIcon (iconPath : hstring) : M unit :=
  s <- get ;;
  if String.eqb iconPath (_lastIconPath s) then ret tt
  else
    modify (set_lastIconPath iconPath) ;;
    RunAsync ReloadIcon.

(** [Tab::GetFocusedTitle] (l.168-172).  [Title] is what a control reports as
    its title. *)
Definition GetFocusedTitle (Title : TermControl -> hstring) : M hstring :=
  lastFocusedControl <- RootPane.GetFocusedTerminalControl ;;
  ret match lastFocusedControl with
      | Some c => Title c
      | None => EmptyString
      end.

(** [Tab::SetTabText] (l.180-187). *)
Definition SetTabText (text : hstring) : M unit :=
  RunAsync (SetHeader text).

(** [Tab::Scroll] (l.197-204): [control.Dispatcher()] is called on whatever
    [GetFocusedTerminalControl] returned. *)
Definition Scroll (delta : Z) : M unit :=
  control <- GetFocusedTerminalControl ;;
  match control with
  | Some c => RunAsync (ScrollViewport c delta)
  | None => fail NullDereference
  end.

(** [Tab::CanAddVerticalSplit] (l.210-213). *)
Definition CanAddVerticalSplit (cfg : Config) : M bool :=
  RootPane.CanSplitVertical cfg.

(** [Tab::AddVerticalSplit] (l.223-226). *)
Definition AddVerticalSplit (cfg : Config) (profile : GUID)
  (control : TermControl) : M unit :=
  RootPane.SplitVertical cfg profile control ;; ret tt.

(** [Tab::CanAddHorizontalSplit] (l.232-235). *)
Definition CanAddHorizontalSplit (cfg : Config) : M bool :=
  RootPane.CanSplitHorizontal cfg.

(** [Tab::AddHorizontalSplit] (l.245-248). *)
Definition AddHorizontalSplit (cfg : Config) (profile : GUID)
  (control : TermControl) : M unit :=
  RootPane.SplitHorizontal cfg profile control ;; ret tt.

(** [Tab::ResizeContent] (l.257-260). *)
Definition ResizeContent (newSize : Size) : M unit :=
  RootPane.ResizeContent newSize.

(** [Tab::ResizePane] (l.269-272). *)
Definition ResizePane (cfg : Config) (direction : Direction) : M unit :=
  RootPane.ResizePane cfg direction.

(** [Tab::NavigateFocus] (l.281-284). *)
Definition NavigateFocus (cfg : Config) (direction : Direction) : M unit :=
  RootPane.NavigateFocus cfg direction.

(** [Tab::ClosePane] (l.294-298): [Close] is called on whatever
    [GetFocusedPane] returned. *)
Definition ClosePane : M unit :=
  focused <- RootPane.GetFocusedPane ;;
  match focused with
  | Some leaf => RootPane.Close leaf
  | None => fail NullDereference
  end.

End Tab.

(** ** Runs of a Tab *)

(** One queued lambda runs on the UI thread.  The icon lambda reads
    [_lastIconPath] when it runs, not when it was queued; the scroll lambda
    asks its control for the offset when it runs.  What the control does with
    the viewport it is given is the control's own: its offset moves by
    [EnvScrolled] below. *)
Definition runLambda (a : UiAction) (s : State) : State :=
  match a with
  | ReloadIcon =>
      set_tabViewItem {| FontSize := FontSize (_tabViewItem s);
                         Icon := Some (_lastIconPath s);
                         Header := Header (_tabViewItem s) |} s
  | SetHeader text =>
      set_tabViewItem {| FontSize := FontSize (_tabViewItem s);
                         Icon := Icon (_tabViewItem s);
                         Header := text |} s
  | ScrollViewport c delta =>
      (* l.201-202: [currentOffset + delta] is a sum of two ints *)
      let currentOffset := scrollOffset s c in
      set_controlCalls
        (controlCalls s
         ++ [GetScrollOffset c currentOffset;
             KeyboardScrollViewport c (addInt currentOffset delta)]) s
  end.

Definition pump : M unit :=
  modify (fun s =>
    match dispatcher s with
    | [] => s
    | a :: rest => runLambda a (set_dispatcher rest s)
    end).

(** What can happen to a Tab: the calls of its public methods that change
    state, the keyboard focus moving by the user's hand, the dispatcher
    running a queued lambda, and a control's viewport coming to rest at an
    offset (after a scroll it was asked for, or by its own output). *)
Inductive Op :=
| OpSetFocused (focused : bool)
| OpUpdateSettings (settings : TerminalSettings) (profile : GUID)
| OpUpdateFocus
| OpUpdateIcon (iconPath : hstring)
| OpSetTabText (text : hstring)
| OpScroll (delta : Z)
| OpAddVerticalSplit (profile : GUID) (control : TermControl)
| OpAddHorizontalSplit (profile : GUID) (control : TermControl)
| OpResizeContent (newSize : Size)
| OpResizePane (direction : Direction)
| OpNavigateFocus (direction : Direction)
| OpClosePane
| EnvFocusMoved (c : option TermControl)
| EnvPump
| EnvScrolled (c : TermControl) (offset : Z).

Definition exec (cfg : Config) (op : Op) : M unit :=
  match op with
  | OpSetFocused b => Tab.SetFocused b
  | OpUpdateSettings st g => Tab.UpdateSettings st g
  | OpUpdateFocus => Tab.UpdateFocus
  | OpUpdateIcon p => Tab.UpdateIcon p
  | OpSetTabText t => Tab.SetTabText t
  | OpScroll d => Tab.Scroll d
  | OpAddVerticalSplit g c => Tab.AddVerticalSplit cfg g c
  | OpAddHorizontalSplit g c => Tab.AddHorizontalSplit cfg g c
  | OpResizeContent sz => Tab.ResizeContent sz
  | OpResizePane d => Tab.ResizePane cfg d
  | OpNavigateFocus d => Tab.NavigateFocus cfg d
  | OpClosePane => Tab.ClosePane
  | EnvFocusMoved c => modify (set_uiFocus c)
  | EnvPump => pump
  | EnvScrolled c offset =>
      modify (fun s =>
        set_scrollOffset
          (fun c' => if Nat.eqb c' c then wrapInt offset else scrollOffset s c') s)
  end.

(** The state a call leaves behind, whether it returned or failed. *)
Definition step (cfg : Config) (s : State) (op : Op) : State :=
  snd (exec cfg op s).

Definition run (cfg : Config) (ops : list Op) (s : State) : State :=
  fold_left (step cfg) ops s.

(** A sample configuration and tabs, for evaluation. *)
Definition cfg0 : Config :=
  {| minimumWidth := 10; minimumHeight := 10; separatorThickness := 2;
     minimumRatio := 1 # 10; maximumRatio := 9 # 10; ratioIncrement := 1 # 20;
     initialSize := {| Width := 100; Height := 100 |} |}.

(** The tab of the examples: one Leaf for control 1 of profile 7. *)
Definition tab0 : State := Tab.Tab cfg0 7%nat 1%nat.

(** [tab0] after the keyboard focus was found outside it: no Leaf is marked
    last-focused. *)
Definition tabUnfocused : State := run cfg0 [OpUpdateFocus] tab0.

(** The control of the first Leaf in traversal order. *)
Fixpoint firstControl (p : Pane.t) : TermControl :=
  match p with
  | Pane.Leaf c _ _ => c
  | Pane.Split _ _ a _ => firstControl a
  end.

(** Focus is transferred to the content surface [c] between [s] and [s']: the
    control received the [Focus] call last and owns the keyboard focus. *)
Definition transfersFocusTo (c : TermControl) (s s' : State) : Prop :=
  uiFocus s' = Some c /\ controlCalls s' = controlCalls s ++ [Focus c].

(** The target section 4.4 names for [SetFocused(true)]: the tracked
    last-focused leaf, or the first Leaf by traversal order if none is
    tracked. *)
Definition focusTargetOfSpec (p : Pane.t) : TermControl :=
  match Pane.GetFocusedTerminalControl p with
  | Some c => c
  | None => firstControl p
  end.

(** The Tab's two split methods, by axis. *)
Definition AddSplit (cfg : Config) (ax : SplitState) (profile : GUID)
  (control : TermControl) : M unit :=
  match ax with
  | Vertical => Tab.AddVerticalSplit cfg profile control
  | Horizontal => Tab.AddHorizontalSplit cfg profile control
  end.

(** What ties the deliveries of the Closed event to the tree: the Tab's one
    subscription stands, and the event was delivered, once and with the
    empty tree in view, exactly if the tree is empty. *)
Definition closedInv (s : State) : Prop :=
  ClosedSubscribers (_rootPane s) = [InvokeTabClosedHandlers]
  /\ closedLog s = match root (_rootPane s) with
                   | Some _ => []
                   | None => [None]
                   end.






(** [tab0] split vertically, then its new Leaf split horizontally: control 1
    on the left, 2 above 3 on the right, 3 focused. *)
Definition tabThree : State :=
  run cfg0 [OpAddVerticalSplit 7%nat 2%nat; OpAddHorizontalSplit 7%nat 3%nat] tab0.

(** The derived rectangles of the leaves of a Tab's tree. *)
Definition layout (cfg : Config) (s : State) : option (list (Pane.Path * Rect)) :=
  option_map
    (fun p => Pane.ComputeLayout (separatorThickness cfg) p
                (RootPane.rect (_rootPane s)))
    (root (_rootPane s)).

(** ** The dispatcher drained, and what a run asked for *)

(** The dispatcher runs [n] queued lambdas, oldest first. *)
Fixpoint drainN (n : nat) (s : State) : State :=
  match n with
  | O => s
  | S k => drainN k (snd (pump s))
  end.

(** The dispatcher runs every lambda that is queued. *)
Definition drain (s : State) : State := drainN (List.length (dispatcher s)) s.

(** The argument of the last [SetFocused] of a run, [init] if there is none. *)
Definition lastSetFocused (ops : list Op) (init : bool) : bool :=
  fold_left (fun b op => match op with OpSetFocused f => f | _ => b end)
    ops init.

(** The text of the last [SetTabText] of a run, [init] if there is none. *)
Definition lastTabText (ops : list Op) (init : hstring) : hstring :=
  fold_left (fun t op => match op with OpSetTabText t' => t' | _ => t end)
    ops init.

(** How often a sequence of icon paths departs from the path before it,
    [prev] being the path before the first. *)
Fixpoint changes (prev : hstring) (ps : list hstring) : nat :=
  match ps with
  | [] => O
  | p :: rest =>
      if String.eqb p prev then changes prev rest else S (changes p rest)
  end.

(** The header the tab view item shows once the queued lambdas have run: the
    text of the youngest queued header lambda, else the header it has. *)
Definition pendingHeader (s : State) : hstring :=
  fold_left (fun h a => match a with SetHeader t => t | _ => h end)
    (dispatcher s) (Header (_tabViewItem s)).

(** The methods whose whole effect is inside the pane tree, and the moves of
    the keyboard focus and of a control's viewport: they are handed none of
    the Tab's own fields. *)
Definition isTreeOp (op : Op) : bool :=
  match op with
  | OpUpdateSettings _ _ | OpUpdateFocus | OpAddVerticalSplit _ _
  | OpAddHorizontalSplit _ _ | OpResizeContent _ | OpResizePane _
  | OpNavigateFocus _ | OpClosePane | EnvFocusMoved _ | EnvScrolled _ _ => true
  | _ => false
  end.

(** The tab view item is in step with the icon path: an icon lambda is still
    queued, or the icon is the one of the last icon path, or no icon was ever
    asked for. *)
Definition iconInv (s : State) : Prop :=
  In ReloadIcon (dispatcher s)
  \/ Icon (_tabViewItem s) = Some (_lastIconPath s)
  \/ (Icon (_tabViewItem s) = None /\ _lastIconPath s = EmptyString).

(** ** Counting scrolls *)

Definition isScrollOf (c : TermControl) (a : UiAction) : bool :=
  match a with
  | ScrollViewport c' _ => Nat.eqb c' c
  | _ => false
  end.

(** The scroll lambdas for [c] that are queued. *)
Definition pendingScrolls (c : TermControl) (s : State) : nat :=
  List.length (filter (isScrollOf c) (dispatcher s)).

Definition isViewportCallOn (c : TermControl) (k : ControlCall) : bool :=
  match k with
  | KeyboardScrollViewport c' _ => Nat.eqb c' c
  | _ => false
  end.

(** The [KeyboardScrollViewport] calls [c] has received. *)
Definition viewportCalls (c : TermControl) (s : State) : nat :=
  List.length (filter (isViewportCallOn c) (controlCalls s)).

(** Whether [op], called in [s], is a [Scroll] that finds [c] focused. *)
Definition scrollsOn (c : TermControl) (s : State) (op : Op) : nat :=
  match op with
  | OpScroll _ =>
      if option_nat_eqb (RootPane.focusedControl (_rootPane s)) c
      then 1%nat else 0%nat
  | _ => 0%nat
  end.

(** The [Scroll] calls of a run that found [c] focused when they were made. *)
Fixpoint acceptedScrolls (cfg : Config) (c : TermControl) (ops : list Op)
  (s : State) : nat :=
  match ops with
  | [] => 0%nat
  | op :: rest =>
      (scrollsOn c s op + acceptedScrolls cfg c rest (step cfg s op))%nat
  end.


(** The methods whose bodies, all in [Tab.cpp], call nothing of the root pane
    but the focus lookup; with them the lambdas running and the keyboard focus
    moving. *)
Definition keepsTree (op : Op) : bool :=
  match op with
  | OpSetFocused _ | OpUpdateIcon _ | OpSetTabText _ | OpScroll _
  | EnvPump | EnvFocusMoved _ => true
  | _ => false
  end.


(** * Properties *)

(** ** The scenarios of section 8, on the modelled tree *)

(** A single Leaf of size 100x100 split vertically: the root becomes a
    vertical Split with ratio 1/2, and the layout gives each Leaf half of the
    width left by the separator. *)
Example scenario_vertical_split :
  root (_rootPane (run cfg0 [OpAddVerticalSplit 7%nat 2%nat] tab0))
  = Some (Pane.Split Vertical (1 # 2) (Pane.Leaf 1%nat 7%nat false)
            (Pane.Leaf 2%nat 7%nat true))
  /\ exists r1 r2,
       layout cfg0 (run cfg0 [OpAddVerticalSplit 7%nat 2%nat] tab0)
       = Some [([false], r1); ([true], r2)]
       /\ W r1 == 49 /\ H r1 == 100 /\ W r2 == 49 /\ H r2 == 100
       /\ X r1 == 0 /\ X r2 == 51.
Proof.
  split; [reflexivity |].
  do 2 eexists. split; [reflexivity |]. repeat split; reflexivity.
Qed.

(** Three leaves, A beside B above C: closing A makes the former B/C split
    the root, and the focus falls to B, the first Leaf of the sibling. *)
Example scenario_close_collapses_root :
  root (_rootPane (run cfg0 [OpNavigateFocus Left; OpClosePane] tabThree))
  = Some (Pane.Split Horizontal (1 # 2) (Pane.Leaf 2%nat 7%nat true)
            (Pane.Leaf 3%nat 7%nat false)).
Proof. reflexivity. Qed.

(** A Leaf lower than two minimum heights and a separator cannot be split
    horizontally. *)
Example scenario_cannot_split :
  fst (Tab.CanAddHorizontalSplit cfg0
         (run cfg0 [OpResizeContent {| Width := 100; Height := 21 |}] tab0))
  = Ok false
  /\ fst (Tab.CanAddHorizontalSplit cfg0
            (run cfg0 [OpResizeContent {| Width := 100; Height := 22 |}] tab0))
     = Ok true.
Proof. split; reflexivity. Qed.

(** ** The focus lookup *)

Lemma GetFocusedTerminalControl_None (p : Pane.t) :
  Pane.GetFocusedTerminalControl p = None <-> Pane.hasFocusedLeaf p = false.
Proof.
  induction p as [c g f | ax r a IHa b IHb]; simpl.
  - destruct f; split; congruence.
  - destruct (Pane.GetFocusedTerminalControl a) eqn:Ea.
    + split; [congruence |].
      intros Hf. apply orb_false_elim in Hf as [Hfa _].
      apply IHa in Hfa. congruence.
    + rewrite (proj1 IHa eq_refl). simpl. exact IHb.
Qed.

(** ** Tab::UpdateIcon *)

(** C10.  A call of [UpdateIcon] with the icon path of the call just before
    it returns at once: the whole state is as the first call left it.  In
    particular the stored last icon path is unchanged and no lambda joins the
    dispatcher's queue. *)
Theorem UpdateIcon_repeated_is_noop (s : State) (iconPath : hstring) :
  Tab.UpdateIcon iconPath (snd (Tab.UpdateIcon iconPath s))
  = (Ok tt, snd (Tab.UpdateIcon iconPath s))
  /\ _lastIconPath (snd (Tab.UpdateIcon iconPath s)) = iconPath
  /\ dispatcher (snd (Tab.UpdateIcon iconPath (snd (Tab.UpdateIcon iconPath s))))
     = dispatcher (snd (Tab.UpdateIcon iconPath s)).
Proof.
  assert (Hpath : _lastIconPath (snd (Tab.UpdateIcon iconPath s)) = iconPath).
  { unfold Tab.UpdateIcon, bind, get.
    destruct (String.eqb iconPath (_lastIconPath s)) eqn:E.
    - apply String.eqb_eq in E. simpl. congruence.
    - reflexivity. }
  assert (Hsame : Tab.UpdateIcon iconPath (snd (Tab.UpdateIcon iconPath s))
                  = (Ok tt, snd (Tab.UpdateIcon iconPath s))).
  { set (s1 := snd (Tab.UpdateIcon iconPath s)) in *.
    unfold Tab.UpdateIcon at 1. unfold bind, get.
    rewrite Hpath, String.eqb_refl. reflexivity. }
  split; [exact Hsame | split; [exact Hpath |]].
  rewrite Hsame. reflexivity.
Qed.

(** A new path queues one icon lambda, the same path again none, another
    path a second one. *)
Example UpdateIcon_dispatches_on_change :
  dispatcher (run cfg0 [OpUpdateIcon "a.png"%string] tab0) = [ReloadIcon]
  /\ dispatcher (run cfg0 [OpUpdateIcon "a.png"%string; OpUpdateIcon "a.png"%string] tab0)
     = [ReloadIcon]
  /\ dispatcher (run cfg0 [OpUpdateIcon "a.png"%string; OpUpdateIcon "b.png"%string] tab0)
     = [ReloadIcon; ReloadIcon].
Proof. repeat split. Qed.

(** ** Tab::GetFocusedTitle and Tab::Scroll *)

(** C8.  When [GetFocusedTerminalControl] yields null, [GetFocusedTitle]
    returns the empty string; it does not fail and changes nothing. *)
Theorem GetFocusedTitle_without_focus (Title : TermControl -> hstring)
  (s : State) :
  Tab.GetFocusedTerminalControl s = (Ok None, s) ->
  Tab.GetFocusedTitle Title s = (Ok EmptyString, s).
Proof.
  unfold Tab.GetFocusedTerminalControl, Tab.GetFocusedTitle.
  unfold RootPane.GetFocusedTerminalControl, bind, get, ret.
  intros Hnull. injection Hnull as Hctl. rewrite Hctl. reflexivity.
Qed.

Lemma GetFocusedTitle_without_focus_witness :
  Tab.GetFocusedTerminalControl tabUnfocused = (Ok None, tabUnfocused)
  /\ Tab.GetFocusedTitle (fun _ => "pwsh"%string) tabUnfocused
     = (Ok EmptyString, tabUnfocused).
Proof.
  split.
  - reflexivity.
  - apply (GetFocusedTitle_without_focus (fun _ => "pwsh"%string) tabUnfocused).
    reflexivity.
Defined.

(** C9.  [Scroll] uses the focused terminal control unguarded.  It returns,
    having queued the scroll lambda, exactly when some control is marked
    last-focused; with none it ends in a null dereference, where
    [GetFocusedTitle], guarding the same lookup, returns. *)
Theorem Scroll_requires_focused_control (s : State) (delta : Z) :
  (forall c, Tab.GetFocusedTerminalControl s = (Ok (Some c), s) ->
     Tab.Scroll delta s
     = (Ok tt, set_dispatcher (dispatcher s ++ [ScrollViewport c delta]) s))
  /\ (Tab.GetFocusedTerminalControl s = (Ok None, s) ->
        Tab.Scroll delta s = (Failed NullDereference, s)
        /\ forall Title, Tab.GetFocusedTitle Title s = (Ok EmptyString, s))
  /\ (fst (Tab.Scroll delta s) = Ok tt <->
        exists p, root (_rootPane s) = Some p /\ Pane.hasFocusedLeaf p = true).
Proof.
  unfold Tab.Scroll, Tab.GetFocusedTitle, Tab.GetFocusedTerminalControl.
  unfold RootPane.GetFocusedTerminalControl, bind, get, ret.
  split; [| split].
  - intros c Hc. injection Hc as Hctl. rewrite Hctl. reflexivity.
  - intros Hnull. injection Hnull as Hctl. rewrite Hctl.
    split; [reflexivity | intros; reflexivity].
  - unfold RootPane.focusedControl.
    destruct (root (_rootPane s)) as [p |] eqn:Hroot.
    + destruct (Pane.GetFocusedTerminalControl p) as [c |] eqn:Hctl; simpl.
      * split; [| reflexivity]. intros _. exists p. split; [reflexivity |].
        destruct (Pane.hasFocusedLeaf p) eqn:Hf; [reflexivity |].
        apply GetFocusedTerminalControl_None in Hf. congruence.
      * split; [discriminate |]. intros [q [Hq Hf]]. inversion Hq; subst q.
        apply GetFocusedTerminalControl_None in Hctl. congruence.
    + simpl. split; [discriminate |]. intros [q [Hq _]]. discriminate.
Qed.

Lemma Scroll_requires_focused_control_witness :
  Tab.Scroll 3 tabUnfocused = (Failed NullDereference, tabUnfocused)
  /\ Tab.Scroll 3 tab0
     = (Ok tt, set_dispatcher [ScrollViewport 1%nat 3%Z] tab0).
Proof.
  split.
  - apply (proj1 (proj2 (Scroll_requires_focused_control tabUnfocused 3))).
    reflexivity.
  - apply (proj1 (Scroll_requires_focused_control tab0 3) 1%nat).
    reflexivity.
Defined.

(** ** Tab::SetFocused *)

(** C2, as stated, fails: on a Tab whose single Leaf is not marked
    last-focused, [SetFocused(true)] does not transfer focus to the first
    Leaf; no control receives a call and the keyboard focus stays where it
    was. *)
Lemma SetFocused_no_fallback_to_first_leaf :
  root (_rootPane tabUnfocused) = Some (Pane.Leaf 1%nat 7%nat false)
  /\ ~ transfersFocusTo (focusTargetOfSpec (Pane.Leaf 1%nat 7%nat false))
         tabUnfocused (snd (Tab.SetFocused true tabUnfocused))
  /\ controlCalls (snd (Tab.SetFocused true tabUnfocused)) = []
  /\ uiFocus (snd (Tab.SetFocused true tabUnfocused)) = None.
Proof.
  split; [reflexivity | split; [| split; reflexivity]].
  intros [Hfocus _]. vm_compute in Hfocus. discriminate.
Qed.

(** C2, amended.  [SetFocused(true)] returns with the Tab marked focused and
    the tree untouched.  If a leaf is tracked as last-focused, focus is
    transferred to its content surface; if none is, nothing else happens: no
    control receives a call. *)
Theorem SetFocused_focuses_tracked_leaf (s : State) :
  fst (Tab.SetFocused true s) = Ok tt
  /\ _focused (snd (Tab.SetFocused true s)) = true
  /\ _rootPane (snd (Tab.SetFocused true s)) = _rootPane s
  /\ (forall c, RootPane.focusedControl (_rootPane s) = Some c ->
        transfersFocusTo c s (snd (Tab.SetFocused true s)))
  /\ (RootPane.focusedControl (_rootPane s) = None ->
        snd (Tab.SetFocused true s) = set_focused true s).
Proof.
  unfold Tab.SetFocused, Tab._Focus, RootPane.GetFocusedTerminalControl.
  unfold Control_Focus, transfersFocusTo, bind, get, ret, modify. simpl.
  destruct (RootPane.focusedControl (_rootPane s)) as [c |]; simpl.
  - do 3 (split; [reflexivity |]). split.
    + intros c' Hc. injection Hc as <-. split; reflexivity.
    + discriminate.
  - do 3 (split; [reflexivity |]). split.
    + discriminate.
    + reflexivity.
Qed.

Lemma SetFocused_focuses_tracked_leaf_witness :
  transfersFocusTo 1%nat tab0 (snd (Tab.SetFocused true tab0))
  /\ snd (Tab.SetFocused true tabUnfocused) = set_focused true tabUnfocused.
Proof.
  split.
  - apply (proj1 (proj2 (proj2 (proj2 (SetFocused_focuses_tracked_leaf tab0))))).
    reflexivity.
  - apply (proj2 (proj2 (proj2 (proj2 (SetFocused_focuses_tracked_leaf tabUnfocused))))).
    reflexivity.
Defined.

(** ** Split *)

Lemma set_root_same (s : State) (r r' : option Pane.t) :
  root (_rootPane s) = r -> set_root r (set_root r' s) = s.
Proof.
  destruct s as [[rt sz subs] item foc path ui q calls offs log]. simpl.
  intros ->. reflexivity.
Qed.

(** No node lies below a Leaf: the address one step past the focused Leaf
    names nothing. *)
Lemma controlAt_below_leaf (p : Pane.t) :
  forall l, Pane.GetFocusedPane p = Some l ->
  Pane.controlAt (l ++ [true]) p = None.
Proof.
  induction p as [c0 g0 f | ax' r a IHa b IHb]; intros l Hl; simpl in Hl.
  - destruct f; [| discriminate]. injection Hl as <-. reflexivity.
  - destruct (Pane.GetFocusedPane a) as [q |] eqn:Ea.
    + injection Hl as <-. simpl. apply IHa. reflexivity.
    + destruct (Pane.GetFocusedPane b) as [q |] eqn:Eb; [| discriminate].
      injection Hl as <-. simpl. apply IHb. reflexivity.
Qed.

(** Splitting the focused Leaf succeeds; the new Leaf, at the end of the old
    address, holds the new content and the focus; closing it gives back the
    tree that was split. *)
Lemma SplitLeaf_focused (ax : SplitState) (g : GUID) (c : TermControl)
  (p : Pane.t) :
  forall l, Pane.GetFocusedPane p = Some l ->
  exists p',
    Pane.SplitLeaf l ax g c p = Some p'
    /\ Pane.GetFocusedPane p' = Some (l ++ [true])
    /\ Pane.controlAt (l ++ [true]) p' = Some c
    /\ Pane.Close (l ++ [true]) p' = Pane.Replaced p.
Proof.
  induction p as [c0 g0 f | ax' r a IHa b IHb]; intros l Hl; simpl in Hl.
  - destruct f; [| discriminate]. injection Hl as <-.
    eexists. split; [reflexivity |]. repeat split.
  - destruct (Pane.GetFocusedPane a) as [q |] eqn:Ea.
    + injection Hl as <-.
      destruct (IHa q eq_refl) as [a' [Hs [Hf [Hc Hcl]]]].
      exists (Pane.Split ax' r a' b). simpl.
      rewrite Hs, Hf, Hcl. repeat split. exact Hc.
    + destruct (Pane.GetFocusedPane b) as [q |] eqn:Eb; [| discriminate].
      injection Hl as <-.
      destruct (IHb q eq_refl) as [b' [Hs [Hf [Hc Hcl]]]].
      exists (Pane.Split ax' r a b'). simpl.
      rewrite Hs, Ea, Hf, Hcl. repeat split. exact Hc.
Qed.

(** What a successful split did to the state. *)
Lemma Split_Ok (cfg : Config) (ax : SplitState) (g : GUID) (c : TermControl)
  (s s1 : State) (h : Pane.Path) :
  RootPane.SplitFocused cfg ax g c s = (Ok h, s1) ->
  exists p l p',
    root (_rootPane s) = Some p
    /\ Pane.GetFocusedPane p = Some l
    /\ Pane.SplitLeaf l ax g c p = Some p'
    /\ h = (l ++ [true])%list
    /\ s1 = set_root (Some p') s.
Proof.
  unfold RootPane.SplitFocused, RootPane.focusedPane, bind, get, ret, modify, fail.
  destruct (RootPane.canSplit cfg ax (_rootPane s)); [| discriminate].
  destruct (root (_rootPane s)) as [p |] eqn:Hroot; [| discriminate].
  destruct (Pane.GetFocusedPane p) as [l |] eqn:Hl; [| discriminate].
  destruct (Pane.SplitLeaf l ax g c p) as [p' |] eqn:Hs; [| discriminate].
  intros H. injection H as <- <-.
  exists p, l, p'. repeat split; assumption.
Qed.

Lemma AddSplit_Ok (cfg : Config) (ax : SplitState) (g : GUID)
  (c : TermControl) (s s1 : State) :
  AddSplit cfg ax g c s = (Ok tt, s1) ->
  exists h, RootPane.SplitFocused cfg ax g c s = (Ok h, s1).
Proof.
  destruct ax; simpl;
    unfold Tab.AddVerticalSplit, Tab.AddHorizontalSplit,
      RootPane.SplitVertical, RootPane.SplitHorizontal, bind, ret;
    intros H.
  - destruct (RootPane.SplitFocused cfg Vertical g c s) as [[h | e] s'];
      [| discriminate].
    injection H as <-. exists h. reflexivity.
  - destruct (RootPane.SplitFocused cfg Horizontal g c s) as [[h | e] s'];
      [| discriminate].
    injection H as <-. exists h. reflexivity.
Qed.

(** C5.  After a successful split, the focused leaf is the newly created one
    (it holds the new content), and closing it, by [ClosePane] or by [Close]
    on its handle, gives back the state before the split: the same tree,
    hence the same leaves and the same ratios. *)
Theorem Split_then_Close_roundtrip (cfg : Config) (ax : SplitState)
  (profile : GUID) (control : TermControl) (s s1 : State) :
  AddSplit cfg ax profile control s = (Ok tt, s1) ->
  (exists h,
     RootPane.focusedPane (_rootPane s1) = Some h
     /\ option_map (Pane.controlAt h) (root (_rootPane s1)) = Some (Some control)
     /\ option_map (Pane.controlAt h) (root (_rootPane s)) = Some None
     /\ RootPane.Close h s1 = (Ok tt, s))
  /\ Tab.ClosePane s1 = (Ok tt, s)
  /\ option_map Pane.leaves (root (_rootPane (snd (Tab.ClosePane s1))))
     = option_map Pane.leaves (root (_rootPane s))
  /\ option_map Pane.ratios (root (_rootPane (snd (Tab.ClosePane s1))))
     = option_map Pane.ratios (root (_rootPane s)).
Proof.
  intros Hadd. destruct (AddSplit_Ok _ _ _ _ _ _ Hadd) as [h Hsplit].
  destruct (Split_Ok _ _ _ _ _ _ _ Hsplit) as [p [l [p' [Hroot [Hl [Hs [-> ->]]]]]]].
  destruct (SplitLeaf_focused ax profile control p l Hl)
    as [p'' [Hs' [Hf [Hc Hcl]]]].
  rewrite Hs in Hs'. injection Hs' as <-.
  assert (Hclose : RootPane.Close (l ++ [true]) (set_root (Some p') s) = (Ok tt, s)).
  { unfold RootPane.Close, bind, get, modify. simpl. rewrite Hcl.
    rewrite (set_root_same s (Some p) (Some p') Hroot). reflexivity. }
  assert (Hpane : Tab.ClosePane (set_root (Some p') s) = (Ok tt, s)).
  { unfold Tab.ClosePane, RootPane.GetFocusedPane, RootPane.focusedPane.
    unfold bind at 1. unfold get, ret, bind at 1. simpl. rewrite Hf.
    exact Hclose. }
  split.
  { exists (l ++ [true])%list.
    split; [unfold RootPane.focusedPane; simpl; exact Hf |].
    split; [simpl; rewrite Hc; reflexivity |].
    split; [| exact Hclose].
    rewrite Hroot. simpl. f_equal. apply controlAt_below_leaf. exact Hl. }
  split; [exact Hpane |].
  rewrite Hpane. split; reflexivity.
Qed.

Lemma Split_then_Close_roundtrip_witness :
  Tab.ClosePane (snd (Tab.AddVerticalSplit cfg0 7%nat 2%nat tab0)) = (Ok tt, tab0).
Proof.
  apply (proj1 (proj2 (Split_then_Close_roundtrip cfg0 Vertical 7%nat 2%nat
                         tab0 (snd (Tab.AddVerticalSplit cfg0 7%nat 2%nat tab0))
                         eq_refl))).
Defined.

(** ** The closed notification *)

Ltac unfold_ops :=
  unfold step, exec, pump, runLambda,
    Tab.SetFocused, Tab._Focus, Tab.UpdateSettings, Tab.UpdateFocus,
    Tab.UpdateIcon, Tab.SetTabText, Tab.Scroll, Tab.ResizeContent,
    Tab.ResizePane, Tab.NavigateFocus, Tab.ClosePane,
    Tab.GetFocusedTerminalControl,
    RootPane.UpdateSettings, RootPane.UpdateFocus, RootPane.ResizeContent,
    RootPane.ResizePane, RootPane.NavigateFocus, RootPane.Close,
    RootPane.GetFocusedPane, RootPane.GetFocusedTerminalControl,
    RootPane.raiseClosed, Control_Focus, RunAsync,
    bind, get, ret, modify, fail.

Ltac break_match :=
  repeat match goal with
         | |- context [match ?x with _ => _ end] => destruct x eqn:?; simpl
         | |- context [if ?x then _ else _] => destruct x eqn:?; simpl
         end.

(** A split either fails and changes nothing, or replaces a nonempty tree by
    another. *)
Lemma Split_state (cfg : Config) (ax : SplitState) (g : GUID) (c : TermControl)
  (s : State) :
  snd (RootPane.SplitFocused cfg ax g c s) = s
  \/ exists p l p',
       root (_rootPane s) = Some p
       /\ Pane.GetFocusedPane p = Some l
       /\ Pane.SplitLeaf l ax g c p = Some p'
       /\ snd (RootPane.SplitFocused cfg ax g c s) = set_root (Some p') s.
Proof.
  destruct (RootPane.SplitFocused cfg ax g c s) as [[h | e] s1] eqn:E.
  - right. destruct (Split_Ok _ _ _ _ _ _ _ E) as [p [l [p' [H1 [H2 [H3 [_ H4]]]]]]].
    exists p, l, p'. simpl. auto.
  - left. simpl. revert E.
    unfold RootPane.SplitFocused, RootPane.focusedPane, bind, get, ret, modify, fail.
    destruct (RootPane.canSplit cfg ax (_rootPane s)); [| congruence].
    destruct (root (_rootPane s)) as [p |]; [| congruence].
    destruct (Pane.GetFocusedPane p) as [l |]; [| congruence].
    destruct (Pane.SplitLeaf l ax g c p); [discriminate | congruence].
Qed.

Lemma AddSplit_state (cfg : Config) (ax : SplitState) (g : GUID)
  (c : TermControl) (s : State) :
  snd (AddSplit cfg ax g c s) = snd (RootPane.SplitFocused cfg ax g c s).
Proof.
  destruct ax; simpl;
    unfold Tab.AddVerticalSplit, Tab.AddHorizontalSplit,
      RootPane.SplitVertical, RootPane.SplitHorizontal, bind, ret.
  - destruct (RootPane.SplitFocused cfg Vertical g c s) as [[h | e] s']; reflexivity.
  - destruct (RootPane.SplitFocused cfg Horizontal g c s) as [[h | e] s']; reflexivity.
Qed.

(** Every call but [ClosePane] leaves the subscription and the deliveries
    alone, and neither empties nor refills the tree. *)
Lemma step_frame (cfg : Config) (s : State) (op : Op) :
  op <> OpClosePane ->
  ClosedSubscribers (_rootPane (step cfg s op)) = ClosedSubscribers (_rootPane s)
  /\ closedLog (step cfg s op) = closedLog s
  /\ (root (_rootPane (step cfg s op)) = None <-> root (_rootPane s) = None).
Proof.
  intros Hop.
  assert (Hsplit : forall ax g c,
    ClosedSubscribers (_rootPane (snd (AddSplit cfg ax g c s)))
    = ClosedSubscribers (_rootPane s)
    /\ closedLog (snd (AddSplit cfg ax g c s)) = closedLog s
    /\ (root (_rootPane (snd (AddSplit cfg ax g c s))) = None
        <-> root (_rootPane s) = None)).
  { intros ax g c. rewrite AddSplit_state.
    destruct (Split_state cfg ax g c s) as [-> | [p [l [p' [Hp [_ [_ ->]]]]]]].
    - repeat split; auto.
    - simpl. rewrite Hp. repeat split; congruence. }
  destruct op; try congruence;
    try (apply (Hsplit Vertical)); try (apply (Hsplit Horizontal));
    unfold_ops; simpl; break_match;
    try (split; [reflexivity | split; [reflexivity |]]);
    try (split; congruence);
    try (destruct (root (_rootPane s)); simpl; split; congruence).
Qed.

Lemma Close_Vanished (l : Pane.Path) (p : Pane.t) :
  Pane.Close l p = Pane.Vanished ->
  l = [] /\ exists c g f, p = Pane.Leaf c g f.
Proof.
  destruct p as [c g f | ax r a b]; destruct l as [| x rest]; simpl;
    try discriminate.
  - intros _. split; [reflexivity |]. exists c, g, f. reflexivity.
  - destruct (Pane.Close rest (if x then b else a)); discriminate.
Qed.

(** [ClosePane], on a Tab whose subscription stands: either nothing is
    delivered and the tree stays nonempty or stays empty, or the tree was one
    focused Leaf, is now empty, and one delivery was made with the empty tree
    in view. *)
Lemma ClosePane_effect (s : State) :
  ClosedSubscribers (_rootPane s) = [InvokeTabClosedHandlers] ->
  ClosedSubscribers (_rootPane (snd (Tab.ClosePane s)))
  = ClosedSubscribers (_rootPane s)
  /\ ((closedLog (snd (Tab.ClosePane s)) = closedLog s
       /\ (root (_rootPane (snd (Tab.ClosePane s))) = None
           <-> root (_rootPane s) = None))
      \/ ((exists c g, root (_rootPane s) = Some (Pane.Leaf c g true))
          /\ Tab.ClosePane s
             = (Ok tt, set_closedLog (closedLog s ++ [None]) (set_root None s)))).
Proof.
  intros Hsubs.
  unfold Tab.ClosePane, RootPane.GetFocusedPane, RootPane.focusedPane,
    RootPane.Close, RootPane.raiseClosed, bind, get, ret, modify, fail.
  destruct (root (_rootPane s)) as [p |] eqn:Hroot; simpl.
  2: { split; [reflexivity | left; split; [reflexivity | tauto]]. }
  destruct (Pane.GetFocusedPane p) as [l |] eqn:Hl; simpl.
  2: { split; [reflexivity | left; rewrite Hroot; split; [reflexivity |]].
       split; congruence. }
  rewrite Hroot.
  destruct (Pane.Close l p) as [| | p'] eqn:Hclose; simpl.
  - split; [reflexivity | left; rewrite Hroot; split; [reflexivity |]].
    split; congruence.
  - rewrite Hsubs. simpl. split; [exact Hsubs | right].
    destruct (Close_Vanished l p Hclose) as [-> [c [g [f ->]]]].
    simpl in Hl. destruct f; [| discriminate].
    split; [exists c, g; reflexivity | reflexivity].
  - split; [reflexivity | left; split; [reflexivity |]].
    split; congruence.
Qed.

Lemma step_closedInv (cfg : Config) (s : State) (op : Op) :
  closedInv s -> closedInv (step cfg s op).
Proof.
  intros [Hsubs Hlog].
  assert (Hframe : op <> OpClosePane -> closedInv (step cfg s op)).
  { intros Hop. destruct (step_frame cfg s op Hop) as [H1 [H2 H3]].
    split; [congruence |]. rewrite H2, Hlog.
    destruct (root (_rootPane s)) eqn:Hr;
      destruct (root (_rootPane (step cfg s op))) eqn:Hr'; try reflexivity.
    - destruct H3 as [H3 _]. specialize (H3 eq_refl). discriminate.
    - destruct H3 as [_ H3]. specialize (H3 eq_refl). discriminate. }
  destruct op; try (apply Hframe; discriminate).
  unfold step, exec.
  destruct (ClosePane_effect s Hsubs) as [H1 [[H2 H3] | [[c [g Hleaf]] H2]]].
  - split; [congruence |]. rewrite H2, Hlog.
    destruct (root (_rootPane s)) eqn:Hr;
      destruct (root (_rootPane (snd (Tab.ClosePane s)))) eqn:Hr';
      try reflexivity.
    + destruct H3 as [H3 _]. specialize (H3 eq_refl). discriminate.
    + destruct H3 as [_ H3]. specialize (H3 eq_refl). discriminate.
  - rewrite H2. split; [exact Hsubs |]. simpl. rewrite Hlog, Hleaf. reflexivity.
Qed.

Lemma run_closedInv (cfg : Config) (ops : list Op) :
  forall s, closedInv s -> closedInv (run cfg ops s).
Proof.
  induction ops as [| op ops IH]; intros s Hs; simpl; [exact Hs |].
  apply IH. apply step_closedInv. exact Hs.
Qed.

Lemma Tab_closedInv (cfg : Config) (g : GUID) (c : TermControl) :
  closedInv (Tab.Tab cfg g c).
Proof. split; reflexivity. Qed.

Lemma app_one_neq {A : Type} (l : list A) (x : A) : (l ++ [x])%list <> l.
Proof.
  intros H. apply (f_equal (@List.length A)) in H.
  rewrite length_app in H. simpl in H. lia.
Qed.

(** C1.  Over any run of a Tab from its construction, the closed
    notification has been delivered at most once.  A call delivers it exactly
    if the call is [ClosePane] and it empties the tree; the delivery is then
    the single one of that call and is made with the tree already empty.
    [ClosePane] on a tree that is a Split delivers nothing. *)
Theorem closed_notification_at_most_once (cfg : Config) (profile : GUID)
  (control : TermControl) (ops : list Op) (op : Op) :
  (List.length (closedLog (run cfg ops (Tab.Tab cfg profile control))) <= 1)%nat
  /\ (closedLog (step cfg (run cfg ops (Tab.Tab cfg profile control)) op)
      <> closedLog (run cfg ops (Tab.Tab cfg profile control))
      <-> op = OpClosePane
          /\ root (_rootPane (run cfg ops (Tab.Tab cfg profile control))) <> None
          /\ root (_rootPane (step cfg (run cfg ops (Tab.Tab cfg profile control)) op))
             = None)
  /\ (closedLog (step cfg (run cfg ops (Tab.Tab cfg profile control)) op)
      = closedLog (run cfg ops (Tab.Tab cfg profile control))
      \/ closedLog (step cfg (run cfg ops (Tab.Tab cfg profile control)) op)
         = closedLog (run cfg ops (Tab.Tab cfg profile control)) ++ [None])
  /\ (forall ax r a b,
        root (_rootPane (run cfg ops (Tab.Tab cfg profile control)))
        = Some (Pane.Split ax r a b) ->
        closedLog (step cfg (run cfg ops (Tab.Tab cfg profile control)) OpClosePane)
        = closedLog (run cfg ops (Tab.Tab cfg profile control))).
Proof.
  pose proof (run_closedInv cfg ops _ (Tab_closedInv cfg profile control))
    as Hinv.
  set (s := run cfg ops (Tab.Tab cfg profile control)) in *.
  destruct Hinv as [Hsubs Hlog].
  assert (Hclose :
    forall ax r a b, root (_rootPane s) = Some (Pane.Split ax r a b) ->
    closedLog (step cfg s OpClosePane) = closedLog s).
  { intros ax r a b Hsplit. unfold step, exec.
    destruct (ClosePane_effect s Hsubs) as [_ [[H _] | [[c [g Hleaf]] _]]];
      [exact H | congruence]. }
  split; [| split; [| split; [| exact Hclose]]].
  - rewrite Hlog. destruct (root (_rootPane s)); simpl; lia.
  - destruct op;
      try (split;
           [ intros Hne; exfalso; apply Hne;
             apply step_frame; discriminate
           | intros [Hop _]; discriminate ]).
    unfold step, exec.
    destruct (ClosePane_effect s Hsubs) as [_ [[H1 H2] | [[c [g Hleaf]] H1]]].
    + split; [intros Hne; contradiction |].
      intros [_ [Hsome Hnone]]. apply H2 in Hnone. contradiction.
    + rewrite H1. simpl. split.
      * intros _. split; [reflexivity | split; [congruence | reflexivity]].
      * intros _. apply app_one_neq.
  - destruct op;
      try (left; apply step_frame; discriminate).
    unfold step, exec.
    destruct (ClosePane_effect s Hsubs) as [_ [[H1 _] | [_ H1]]].
    + left. exact H1.
    + right. rewrite H1. reflexivity.
Qed.

Lemma closed_notification_at_most_once_witness :
  closedLog (step cfg0 (run cfg0 [] tab0) OpClosePane)
  <> closedLog (run cfg0 [] tab0)
  /\ closedLog (step cfg0 (run cfg0 [OpAddVerticalSplit 7%nat 2%nat] tab0) OpClosePane)
     = closedLog (run cfg0 [OpAddVerticalSplit 7%nat 2%nat] tab0).
Proof.
  split.
  - apply (proj1 (proj2 (closed_notification_at_most_once
                           cfg0 7%nat 1%nat [] OpClosePane))).
    split; [reflexivity | split; [discriminate | reflexivity]].
  - apply (proj2 (proj2 (proj2 (closed_notification_at_most_once
                                  cfg0 7%nat 1%nat
                                  [OpAddVerticalSplit 7%nat 2%nat] OpClosePane)))
             Vertical (1 # 2) (Pane.Leaf 1%nat 7%nat false)
             (Pane.Leaf 2%nat 7%nat true)).
    reflexivity.
Defined.

(** ** The shape of the tree under Split and Close *)




Section RatioInvariant.

Variable P : Q -> Prop.
Hypothesis P_half : P (1 # 2).






End RatioInvariant.





(** * The Tab's own fields over a run *)

(** ** What the calls into the pane tree leave alone *)

Lemma invokeAll_state (cbs : list Callback) :
  forall s, exists l, snd (RootPane.invokeAll cbs s) = set_closedLog l s.
Proof.
  induction cbs as [| cb cbs IH]; intros s; simpl.
  - exists (closedLog s). destruct s; reflexivity.
  - unfold bind. destruct cb; simpl.
    destruct (IH (set_closedLog (closedLog s ++ [root (_rootPane s)]) s))
      as [l Hl].
    exists l. rewrite Hl. reflexivity.
Qed.

Lemma ClosePane_state (s : State) :
  snd (Tab.ClosePane s) = s
  \/ (exists p', snd (Tab.ClosePane s) = set_root (Some p') s)
  \/ (exists l, snd (Tab.ClosePane s) = set_closedLog l (set_root None s)).
Proof.
  unfold Tab.ClosePane, RootPane.GetFocusedPane, RootPane.Close,
    RootPane.raiseClosed, bind, get, ret, modify, fail.
  destruct (RootPane.focusedPane (_rootPane s)) as [l |]; simpl; [| auto].
  destruct (root (_rootPane s)) as [p |]; simpl; [| auto].
  destruct (Pane.Close l p) as [| | p']; simpl; [auto | | eauto].
  right. right.
  destruct (invokeAll_state (ClosedSubscribers (_rootPane s)) (set_root None s))
    as [log Hlog].
  exists log. exact Hlog.
Qed.

(** A call into the pane tree, and the keyboard focus moving, change none of
    [_focused], [_lastIconPath], [_tabViewItem] and the dispatcher's queue;
    the controls only receive further calls. *)
Lemma tree_op_frame (cfg : Config) (s : State) (op : Op) :
  isTreeOp op = true ->
  _focused (step cfg s op) = _focused s
  /\ _lastIconPath (step cfg s op) = _lastIconPath s
  /\ _tabViewItem (step cfg s op) = _tabViewItem s
  /\ dispatcher (step cfg s op) = dispatcher s
  /\ exists l, controlCalls (step cfg s op) = controlCalls s ++ l.
Proof.
  intros Hop.
  assert (Hsame : forall s', s' = s ->
    _focused s' = _focused s /\ _lastIconPath s' = _lastIconPath s
    /\ _tabViewItem s' = _tabViewItem s /\ dispatcher s' = dispatcher s
    /\ exists l, controlCalls s' = controlCalls s ++ l).
  { intros s' ->. repeat split. exists []. rewrite app_nil_r. reflexivity. }
  assert (Hsplit : forall ax g c,
    _focused (snd (AddSplit cfg ax g c s)) = _focused s
    /\ _lastIconPath (snd (AddSplit cfg ax g c s)) = _lastIconPath s
    /\ _tabViewItem (snd (AddSplit cfg ax g c s)) = _tabViewItem s
    /\ dispatcher (snd (AddSplit cfg ax g c s)) = dispatcher s
    /\ exists l, controlCalls (snd (AddSplit cfg ax g c s)) = controlCalls s ++ l).
  { intros ax g c. rewrite AddSplit_state.
    destruct (Split_state cfg ax g c s) as [-> | [p [l [p' [_ [_ [_ ->]]]]]]].
    - apply Hsame. reflexivity.
    - simpl. repeat split. exists []. rewrite app_nil_r. reflexivity. }
  destruct op; try discriminate.
  - (* UpdateSettings *)
    unfold_ops. simpl. destruct (root (_rootPane s)); simpl.
    + repeat split. eexists. reflexivity.
    + apply Hsame. reflexivity.
  - (* UpdateFocus *)
    unfold_ops. simpl. repeat split. exists []. rewrite app_nil_r. reflexivity.
  - apply (Hsplit Vertical).
  - apply (Hsplit Horizontal).
  - (* ResizeContent *)
    unfold_ops. simpl. repeat split. exists []. rewrite app_nil_r. reflexivity.
  - (* ResizePane *)
    unfold_ops. simpl. break_match;
      repeat split; exists []; rewrite app_nil_r; reflexivity.
  - (* NavigateFocus *)
    unfold_ops. simpl. break_match; repeat split;
      try (exists []; rewrite app_nil_r; reflexivity);
      eexists; reflexivity.
  - (* ClosePane *)
    unfold step, exec.
    destruct (ClosePane_state s) as [-> | [[p' ->] | [l ->]]]; simpl;
      repeat split; exists []; rewrite app_nil_r; reflexivity.
  - (* the keyboard focus moved *)
    unfold_ops. simpl. repeat split. exists []. rewrite app_nil_r. reflexivity.
  - (* a viewport moved *)
    unfold_ops. simpl. repeat split. exists []. rewrite app_nil_r. reflexivity.
Qed.

(** ** The focus flag *)

Lemma step_focused (cfg : Config) (s : State) (op : Op) :
  _focused (step cfg s op)
  = match op with
    | OpSetFocused b => b
    | _ => _focused s
    end.
Proof.
  destruct op;
    try (apply (tree_op_frame cfg s); reflexivity);
    unfold_ops; simpl; break_match; reflexivity.
Qed.

(** X1.  Whatever is called on a Tab, [IsFocused] answers with the argument
    of the last [SetFocused], or with what it answered before the run if the
    run has none: no other method touches the flag, and [_Focus], reached
    from [SetFocused(true)] only, sets it to the same true. *)
Theorem IsFocused_is_last_SetFocused (cfg : Config) (ops : list Op) (s : State) :
  fst (Tab.IsFocused (run cfg ops s)) = Ok (lastSetFocused ops (_focused s)).
Proof.
  unfold Tab.IsFocused, bind, get, ret. simpl. f_equal.
  revert s. induction ops as [| op ops IH]; intros s; [reflexivity |].
  unfold run, lastSetFocused in *. simpl.
  rewrite IH, step_focused. destruct op; reflexivity.
Qed.

(** ** The icon *)

Lemma last_cons {A : Type} (x d : A) (l : list A) :
  last (x :: l) d = last l x.
Proof.
  revert x d. induction l as [| y l IH]; intros x d; [reflexivity |].
  change (last (x :: y :: l) d) with (last (y :: l) d).
  rewrite (IH y d), (IH y x). reflexivity.
Qed.

(** X2.  A sequence of [UpdateIcon] calls leaves the last of its paths as
    the stored path and queues one icon lambda for each call whose path
    departs from the path before it, none for the others; nothing else of
    the state changes. *)
Theorem UpdateIcon_sequence (cfg : Config) (ps : list hstring) (s : State) :
  run cfg (map OpUpdateIcon ps) s
  = set_dispatcher
      (dispatcher s ++ repeat ReloadIcon (changes (_lastIconPath s) ps))
      (set_lastIconPath (last ps (_lastIconPath s)) s).
Proof.
  revert s. induction ps as [| p ps IH]; intros s.
  - simpl. rewrite app_nil_r. destruct s; reflexivity.
  - change (run cfg (map OpUpdateIcon (p :: ps)) s)
      with (run cfg (map OpUpdateIcon ps) (step cfg s (OpUpdateIcon p))).
    rewrite IH, last_cons. simpl changes.
    unfold step, exec, Tab.UpdateIcon, RunAsync, bind, get, ret, modify.
    destruct (String.eqb p (_lastIconPath s)) eqn:E; simpl.
    + apply String.eqb_eq in E. subst p. reflexivity.
    + rewrite <- app_assoc. reflexivity.
Qed.

(** ** The dispatcher *)

Lemma run_app (cfg : Config) (ops1 ops2 : list Op) (s : State) :
  run cfg (ops1 ++ ops2) s = run cfg ops2 (run cfg ops1 s).
Proof. unfold run. apply fold_left_app. Qed.

Lemma drainN_run (cfg : Config) (n : nat) :
  forall s, drainN n s = run cfg (repeat EnvPump n) s.
Proof.
  induction n as [| n IH]; intros s; [reflexivity |].
  simpl. rewrite IH. reflexivity.
Qed.

Lemma pump_dispatcher (s : State) :
  dispatcher (snd (pump s)) = tl (dispatcher s).
Proof.
  unfold pump, modify. simpl.
  destruct (dispatcher s) as [| a rest] eqn:E; [exact E |].
  destruct a; reflexivity.
Qed.

Lemma drainN_dispatcher (n : nat) :
  forall s, List.length (dispatcher s) = n -> dispatcher (drainN n s) = [].
Proof.
  induction n as [| n IH]; intros s Hlen; cbn [drainN].
  - destruct (dispatcher s); [reflexivity | discriminate].
  - apply IH. rewrite pump_dispatcher.
    destruct (dispatcher s); [discriminate |]. simpl in *. congruence.
Qed.

Lemma drain_dispatcher (s : State) : dispatcher (drain s) = [].
Proof. apply drainN_dispatcher. reflexivity. Qed.

(** [SetFocused] leaves the icon path, the tab view item and the queue alone;
    the controls only receive a further call. *)
Lemma SetFocused_frame (cfg : Config) (s : State) (b : bool) :
  _lastIconPath (step cfg s (OpSetFocused b)) = _lastIconPath s
  /\ _tabViewItem (step cfg s (OpSetFocused b)) = _tabViewItem s
  /\ dispatcher (step cfg s (OpSetFocused b)) = dispatcher s
  /\ exists l, controlCalls (step cfg s (OpSetFocused b)) = controlCalls s ++ l.
Proof.
  unfold_ops. simpl. destruct b; simpl.
  - destruct (RootPane.focusedControl (_rootPane s)); simpl; repeat split;
      [eexists; reflexivity | exists []; rewrite app_nil_r; reflexivity].
  - repeat split. exists []. rewrite app_nil_r. reflexivity.
Qed.

Lemma step_lastIconPath (cfg : Config) (s : State) (op : Op) :
  _lastIconPath (step cfg s op)
  = match op with
    | OpUpdateIcon p => p
    | _ => _lastIconPath s
    end.
Proof.
  destruct op;
    try (apply (tree_op_frame cfg s); reflexivity);
    try (apply (SetFocused_frame cfg s)).
  - unfold_ops. simpl.
    destruct (String.eqb iconPath (_lastIconPath s)) eqn:E; simpl;
      [apply String.eqb_eq in E; congruence | reflexivity].
  - reflexivity.
  - unfold_ops. simpl. break_match; reflexivity.
  - unfold_ops. simpl. break_match; reflexivity.
Qed.

Lemma drainN_lastIconPath (n : nat) :
  forall s, _lastIconPath (drainN n s) = _lastIconPath s.
Proof.
  induction n as [| n IH]; intros s; [reflexivity |].
  simpl. rewrite IH.
  exact (step_lastIconPath cfg0 s EnvPump).
Qed.

Lemma step_iconInv (cfg : Config) (s : State) (op : Op) :
  iconInv s -> iconInv (step cfg s op).
Proof.
  unfold iconInv. intros Hinv.
  assert (Hframe :
    _lastIconPath (step cfg s op) = _lastIconPath s ->
    _tabViewItem (step cfg s op) = _tabViewItem s ->
    dispatcher (step cfg s op) = dispatcher s ->
    In ReloadIcon (dispatcher (step cfg s op))
    \/ Icon (_tabViewItem (step cfg s op)) = Some (_lastIconPath (step cfg s op))
    \/ (Icon (_tabViewItem (step cfg s op)) = None
        /\ _lastIconPath (step cfg s op) = EmptyString)).
  { intros -> -> ->. exact Hinv. }
  destruct op;
    try (match goal with
         | |- context [step cfg s ?o] =>
             destruct (tree_op_frame cfg s o eq_refl) as [_ [H1 [H2 [H3 _]]]]
         end;
         exact (Hframe H1 H2 H3)).
  - destruct (SetFocused_frame cfg s focused) as [H1 [H2 [H3 _]]].
    exact (Hframe H1 H2 H3).
  - (* UpdateIcon *)
    unfold_ops. simpl.
    destruct (String.eqb iconPath (_lastIconPath s)); simpl; [exact Hinv |].
    left. apply in_or_app. right. left. reflexivity.
  - (* SetTabText *)
    unfold_ops. simpl.
    destruct Hinv as [H | H]; [left; apply in_or_app; left; exact H | right; exact H].
  - (* Scroll *)
    unfold_ops. simpl.
    destruct (RootPane.focusedControl (_rootPane s)); simpl; [| exact Hinv].
    destruct Hinv as [H | H]; [left; apply in_or_app; left; exact H | right; exact H].
  - (* the dispatcher runs a lambda *)
    unfold_ops. simpl.
    destruct (dispatcher s) as [| a rest];
      [destruct Hinv as [[] | H]; right; exact H |].
    destruct a; simpl.
    + right. left. reflexivity.
    + destruct Hinv as [[H | H] | H]; [discriminate | left; exact H | right; exact H].
    + destruct Hinv as [[H | H] | H]; [discriminate | left; exact H | right; exact H].
Qed.

Lemma run_iconInv (cfg : Config) (ops : list Op) :
  forall s, iconInv s -> iconInv (run cfg ops s).
Proof.
  induction ops as [| op ops IH]; intros s Hs; [exact Hs |].
  apply IH. apply step_iconInv. exact Hs.
Qed.

(** X3.  The icon lambda reads [_lastIconPath] when it runs, so the tab view
    item never settles on a stale icon: over any run of a Tab from its
    construction, once no icon lambda is queued the icon is the one of the
    last path [UpdateIcon] stored, unless none was ever loaded and the path is
    still the empty one; so it is, in particular, once the dispatcher has run
    all that was queued. *)
Theorem icon_follows_last_path (cfg : Config) (profile : GUID)
  (control : TermControl) (ops : list Op) :
  (~ In ReloadIcon (dispatcher (run cfg ops (Tab.Tab cfg profile control))) ->
     Icon (_tabViewItem (run cfg ops (Tab.Tab cfg profile control)))
     = Some (_lastIconPath (run cfg ops (Tab.Tab cfg profile control)))
     \/ (Icon (_tabViewItem (run cfg ops (Tab.Tab cfg profile control))) = None
         /\ _lastIconPath (run cfg ops (Tab.Tab cfg profile control))
            = EmptyString))
  /\ (Icon (_tabViewItem (drain (run cfg ops (Tab.Tab cfg profile control))))
      = Some (_lastIconPath (run cfg ops (Tab.Tab cfg profile control)))
      \/ (Icon (_tabViewItem (drain (run cfg ops (Tab.Tab cfg profile control))))
          = None
          /\ _lastIconPath (run cfg ops (Tab.Tab cfg profile control))
             = EmptyString)).
Proof.
  assert (Hfresh : iconInv (Tab.Tab cfg profile control)).
  { right. right. split; reflexivity. }
  set (s := run cfg ops (Tab.Tab cfg profile control)).
  assert (Hs : iconInv s) by (apply run_iconInv; exact Hfresh).
  split.
  - intros Hnone. destruct Hs as [H | H]; [contradiction | exact H].
  - assert (Hd : iconInv (drain s)).
    { unfold drain. rewrite (drainN_run cfg). apply run_iconInv. exact Hs. }
    unfold iconInv in Hd. rewrite drain_dispatcher in Hd.
    unfold drain in Hd at 2 4. rewrite drainN_lastIconPath in Hd.
    destruct Hd as [[] | H]. exact H.
Qed.

(** ** The header *)

Lemma step_pendingHeader (cfg : Config) (s : State) (op : Op) :
  pendingHeader (step cfg s op)
  = match op with
    | OpSetTabText t => t
    | _ => pendingHeader s
    end.
Proof.
  unfold pendingHeader.
  assert (Hframe :
    _tabViewItem (step cfg s op) = _tabViewItem s ->
    dispatcher (step cfg s op) = dispatcher s ->
    fold_left (fun h a => match a with SetHeader t => t | _ => h end)
      (dispatcher (step cfg s op)) (Header (_tabViewItem (step cfg s op)))
    = fold_left (fun h a => match a with SetHeader t => t | _ => h end)
        (dispatcher s) (Header (_tabViewItem s))).
  { intros -> ->. reflexivity. }
  destruct op;
    try (match goal with
         | |- context [step cfg s ?o] =>
             destruct (tree_op_frame cfg s o eq_refl) as [_ [_ [H2 [H3 _]]]]
         end;
         exact (Hframe H2 H3)).
  - destruct (SetFocused_frame cfg s focused) as [_ [H2 [H3 _]]].
    exact (Hframe H2 H3).
  - (* UpdateIcon *)
    unfold_ops. simpl.
    destruct (String.eqb iconPath (_lastIconPath s)); simpl; [reflexivity |].
    rewrite fold_left_app. reflexivity.
  - (* SetTabText *)
    unfold_ops. simpl. rewrite fold_left_app. reflexivity.
  - (* Scroll *)
    unfold_ops. simpl.
    destruct (RootPane.focusedControl (_rootPane s)); simpl; [| reflexivity].
    rewrite fold_left_app. reflexivity.
  - (* the dispatcher runs a lambda *)
    unfold_ops. simpl.
    destruct (dispatcher s) as [| a rest] eqn:E; [rewrite E; reflexivity |].
    destruct a; reflexivity.
Qed.

Lemma run_pendingHeader (cfg : Config) (ops : list Op) :
  forall s, pendingHeader (run cfg ops s) = lastTabText ops (pendingHeader s).
Proof.
  induction ops as [| op ops IH]; intros s; [reflexivity |].
  unfold run, lastTabText in *. simpl.
  rewrite IH, step_pendingHeader. destruct op; reflexivity.
Qed.

Lemma drain_pendingHeader (s : State) :
  Header (_tabViewItem (drain s)) = pendingHeader s.
Proof.
  assert (Hkeep : forall n s0, pendingHeader (drainN n s0) = pendingHeader s0).
  { induction n as [| n IH]; intros s0; [reflexivity |].
    cbn [drainN]. rewrite IH. exact (step_pendingHeader cfg0 s0 EnvPump). }
  rewrite <- (Hkeep (List.length (dispatcher s)) s).
  fold (drain s). unfold pendingHeader. rewrite drain_dispatcher. reflexivity.
Qed.

(** X4.  The header lambda carries its text with it, and the dispatcher runs
    the lambdas in the order they were queued: whatever is called on a Tab,
    once the dispatcher has run all that was queued the header is the text of
    the last [SetTabText], or, without one, the header the Tab was heading
    for before the run. *)
Theorem header_is_last_SetTabText (cfg : Config) (ops : list Op) (s : State) :
  Header (_tabViewItem (drain (run cfg ops s)))
  = lastTabText ops (pendingHeader s).
Proof.
  rewrite drain_pendingHeader. apply run_pendingHeader.
Qed.

(** ** Scrolling *)

(** The sum of [currentOffset] and [delta] is taken in [int]: past [INT_MAX]
    it comes back from [INT_MIN]. *)
Example addInt_wraps :
  addInt 1 INT_MAX = INT_MIN /\ addInt 10 (-3) = 7%Z /\ addInt INT_MIN (-1) = INT_MAX.
Proof. repeat split. Qed.

(** The scroll lambda, when the dispatcher runs it: it asks the control it
    carries for its offset, then for the viewport at offset plus delta. *)
Lemma pump_scroll_lambda (s : State) (c : TermControl) (delta : Z)
  (rest : list UiAction) :
  dispatcher s = ScrollViewport c delta :: rest ->
  snd (pump s)
  = set_controlCalls
      (controlCalls s
       ++ [GetScrollOffset c (scrollOffset s c);
           KeyboardScrollViewport c (addInt (scrollOffset s c) delta)])
      (set_dispatcher rest s).
Proof.
  intros Hq. unfold pump, modify. simpl. rewrite Hq. reflexivity.
Qed.

Lemma filter_ApplySettings (c : TermControl) (st : TerminalSettings)
  (l : list TermControl) :
  filter (isViewportCallOn c) (map (fun c' => ApplySettings c' st) l) = [].
Proof. induction l as [| x l IH]; [reflexivity | exact IH]. Qed.

(** The calls into the pane tree, the moves of focus and viewport, and
    [SetFocused] ask no control for a viewport and queue nothing. *)
Lemma quiet_op_scrolls (cfg : Config) (c : TermControl) (s : State) (op : Op) :
  isTreeOp op = true \/ (exists b, op = OpSetFocused b) ->
  viewportCalls c (step cfg s op) = viewportCalls c s
  /\ pendingScrolls c (step cfg s op) = pendingScrolls c s.
Proof.
  unfold viewportCalls, pendingScrolls.
  assert (Hsame : forall s', s' = s ->
    List.length (filter (isViewportCallOn c) (controlCalls s'))
    = List.length (filter (isViewportCallOn c) (controlCalls s))
    /\ List.length (filter (isScrollOf c) (dispatcher s'))
       = List.length (filter (isScrollOf c) (dispatcher s))).
  { intros s' ->. split; reflexivity. }
  intros [Hop | [b ->]].
  - destruct op; try discriminate.
    + (* UpdateSettings *)
      unfold_ops. simpl. destruct (root (_rootPane s)); simpl;
        [| split; reflexivity].
      rewrite filter_app, filter_ApplySettings, app_nil_r. split; reflexivity.
    + unfold_ops. simpl. split; reflexivity.
    + change (step cfg s (OpAddVerticalSplit profile control))
        with (snd (AddSplit cfg Vertical profile control s)).
      rewrite AddSplit_state.
      destruct (Split_state cfg Vertical profile control s)
        as [-> | [p [l [p' [_ [_ [_ ->]]]]]]]; split; reflexivity.
    + change (step cfg s (OpAddHorizontalSplit profile control))
        with (snd (AddSplit cfg Horizontal profile control s)).
      rewrite AddSplit_state.
      destruct (Split_state cfg Horizontal profile control s)
        as [-> | [p [l [p' [_ [_ [_ ->]]]]]]]; split; reflexivity.
    + unfold_ops. simpl. split; reflexivity.
    + unfold_ops. simpl. break_match; split; reflexivity.
    + (* NavigateFocus *)
      unfold_ops. simpl. break_match; try (split; reflexivity).
      rewrite filter_app. simpl. rewrite app_nil_r. split; reflexivity.
    + (* ClosePane *)
      unfold step, exec.
      destruct (ClosePane_state s) as [-> | [[p' ->] | [l ->]]];
        split; reflexivity.
    + unfold_ops. simpl. split; reflexivity.
    + unfold_ops. simpl. split; reflexivity.
  - unfold_ops. simpl. destruct b; simpl; [| split; reflexivity].
    destruct (RootPane.focusedControl (_rootPane s)); simpl;
      [| split; reflexivity].
    rewrite filter_app. simpl. rewrite app_nil_r. split; reflexivity.
Qed.

Lemma step_scrolls (cfg : Config) (c : TermControl) (s : State) (op : Op) :
  (viewportCalls c (step cfg s op) + pendingScrolls c (step cfg s op)
   = viewportCalls c s + pendingScrolls c s + scrollsOn c s op)%nat.
Proof.
  assert (Hquiet :
    isTreeOp op = true \/ (exists b, op = OpSetFocused b) ->
    scrollsOn c s op = 0%nat ->
    (viewportCalls c (step cfg s op) + pendingScrolls c (step cfg s op)
     = viewportCalls c s + pendingScrolls c s + scrollsOn c s op)%nat).
  { intros Hop H0. destruct (quiet_op_scrolls cfg c s op Hop) as [-> ->].
    rewrite H0. lia. }
  destruct op;
    try (apply Hquiet; [left; reflexivity | reflexivity]);
    try (apply Hquiet; [right; eexists; reflexivity | reflexivity]);
    unfold viewportCalls, pendingScrolls, scrollsOn.
  - (* UpdateIcon *)
    unfold_ops. simpl.
    destruct (String.eqb iconPath (_lastIconPath s)); simpl; [lia |].
    rewrite filter_app, length_app. simpl. lia.
  - (* SetTabText *)
    unfold_ops. simpl. rewrite filter_app, length_app. simpl. lia.
  - (* Scroll *)
    unfold_ops. simpl.
    destruct (RootPane.focusedControl (_rootPane s)) as [c0 |]; simpl; [| lia].
    rewrite filter_app, length_app. simpl.
    destruct (Nat.eqb c0 c); simpl; lia.
  - (* the dispatcher runs a lambda *)
    unfold_ops. simpl.
    destruct (dispatcher s) as [| a rest] eqn:E; simpl; [rewrite E; simpl; lia |].
    destruct a as [| t | c0 d]; simpl; try lia.
    rewrite filter_app, length_app. simpl.
    destruct (Nat.eqb c0 c); simpl; lia.
Qed.

Lemma run_scrolls (cfg : Config) (c : TermControl) (ops : list Op) :
  forall s,
  (viewportCalls c (run cfg ops s) + pendingScrolls c (run cfg ops s)
   = viewportCalls c s + pendingScrolls c s + acceptedScrolls cfg c ops s)%nat.
Proof.
  induction ops as [| op ops IH]; intros s; [simpl; lia |].
  change (run cfg (op :: ops) s) with (run cfg ops (step cfg s op)).
  rewrite IH. cbn [acceptedScrolls].
  pose proof (step_scrolls cfg c s op). lia.
Qed.

Lemma acceptedScrolls_pumps (cfg : Config) (c : TermControl) (n : nat) :
  forall s, acceptedScrolls cfg c (repeat EnvPump n) s = 0%nat.
Proof.
  induction n as [| n IH]; intros s; [reflexivity |].
  simpl. apply IH.
Qed.

(** X5.  No scroll is dropped, doubled or sent elsewhere: whatever is called
    on a Tab and whenever the dispatcher runs, the [KeyboardScrollViewport]
    calls a control has received and the scroll lambdas still queued for it
    add up to what they were before the run plus the [Scroll] calls of the
    run that found that control focused when they were made; so once the
    dispatcher has run all that was queued, the control has received exactly
    that many calls, wherever the focus went meanwhile. *)
Theorem scrolls_are_conserved (cfg : Config) (c : TermControl)
  (ops : list Op) (s : State) :
  (viewportCalls c (run cfg ops s) + pendingScrolls c (run cfg ops s)
   = viewportCalls c s + pendingScrolls c s + acceptedScrolls cfg c ops s)%nat
  /\ (viewportCalls c (drain (run cfg ops s))
      = viewportCalls c s + pendingScrolls c s + acceptedScrolls cfg c ops s)%nat.
Proof.
  split; [apply run_scrolls |].
  pose proof (run_scrolls cfg c ops s) as Hrun.
  pose proof (run_scrolls cfg c
                (repeat EnvPump (List.length (dispatcher (run cfg ops s))))
                (run cfg ops s)) as Hdrain.
  rewrite <- (drainN_run cfg) in Hdrain. fold (drain (run cfg ops s)) in Hdrain.
  rewrite acceptedScrolls_pumps in Hdrain.
  assert (Hempty : pendingScrolls c (drain (run cfg ops s)) = 0%nat).
  { unfold pendingScrolls. rewrite drain_dispatcher. reflexivity. }
  lia.
Qed.




(** ** Repeated focus *)

Lemma SetFocused_true_state (s : State) (c : TermControl) :
  RootPane.focusedControl (_rootPane s) = Some c ->
  snd (Tab.SetFocused true s)
  = set_uiFocus (Some c)
      (set_controlCalls (controlCalls s ++ [Focus c]) (set_focused true s)).
Proof.
  intros Hc.
  unfold Tab.SetFocused, Tab._Focus, RootPane.GetFocusedTerminalControl,
    Control_Focus, bind, get, ret, modify. simpl.
  rewrite Hc. reflexivity.
Qed.

(** X7.  [SetFocused(true)] does not ask whether the Tab is focused already:
    each of [k] calls in a row puts a [Focus] call on the tracked control,
    where [UpdateIcon] with an unchanged path does nothing. *)
Theorem SetFocused_refocuses_every_time (cfg : Config) (s : State)
  (c : TermControl) (k : nat) :
  Tab.GetFocusedTerminalControl s = (Ok (Some c), s) ->
  controlCalls (run cfg (repeat (OpSetFocused true) k) s)
  = controlCalls s ++ repeat (Focus c) k
  /\ fst (Tab.IsFocused (run cfg (repeat (OpSetFocused true) (S k)) s)) = Ok true.
Proof.
  intros Hc. injection Hc as Hc.
  assert (Hrun : forall n s0,
    RootPane.focusedControl (_rootPane s0) = Some c ->
    controlCalls (run cfg (repeat (OpSetFocused true) n) s0)
    = controlCalls s0 ++ repeat (Focus c) n
    /\ (n <> O -> _focused (run cfg (repeat (OpSetFocused true) n) s0) = true)).
  { induction n as [| n IH]; intros s0 H0.
    - simpl. rewrite app_nil_r. split; [reflexivity | congruence].
    - change (run cfg (repeat (OpSetFocused true) (S n)) s0)
        with (run cfg (repeat (OpSetFocused true) n)
                (snd (Tab.SetFocused true s0))).
      rewrite (SetFocused_true_state s0 c H0).
      destruct (IH (set_uiFocus (Some c)
                      (set_controlCalls (controlCalls s0 ++ [Focus c])
                         (set_focused true s0))) H0) as [Hcalls Hflag].
      split.
      + rewrite Hcalls. simpl. rewrite <- app_assoc. reflexivity.
      + intros _. destruct n as [| n']; [reflexivity |].
        apply Hflag. discriminate. }
  split.
  - apply Hrun. exact Hc.
  - unfold Tab.IsFocused, bind, get, ret. simpl. f_equal.
    apply (Hrun (S k) s Hc). discriminate.
Qed.

Lemma SetFocused_refocuses_every_time_witness :
  controlCalls (run cfg0 (repeat (OpSetFocused true) 3) tab0)
  = [Focus 1%nat; Focus 1%nat; Focus 1%nat].
Proof.
  apply (proj1 (SetFocused_refocuses_every_time cfg0 tab0 1%nat 3 eq_refl)).
Defined.

(** ** The tab view item *)

Lemma step_FontSize (cfg : Config) (s : State) (op : Op) :
  FontSize (_tabViewItem (step cfg s op)) = FontSize (_tabViewItem s).
Proof.
  destruct op;
    try (match goal with
         | |- context [step cfg s ?o] =>
             destruct (tree_op_frame cfg s o eq_refl) as [_ [_ [H2 _]]]
         end;
         rewrite H2; reflexivity).
  - destruct (SetFocused_frame cfg s focused) as [_ [H2 _]].
    rewrite H2. reflexivity.
  - unfold_ops. simpl. break_match; reflexivity.
  - reflexivity.
  - unfold_ops. simpl. break_match; reflexivity.
  - unfold_ops. simpl. break_match; reflexivity.
Qed.

(** X8.  [GetTabViewItem] always hands out an item with the font size
    [_MakeTabViewItem] gave it: over any run of a Tab from its construction,
    no method and no queued lambda changes it, the lambdas setting the icon
    and the header only. *)
Theorem TabViewItem_keeps_font_size (cfg : Config) (profile : GUID)
  (control : TermControl) (ops : list Op) :
  exists item,
    fst (Tab.GetTabViewItem (run cfg ops (Tab.Tab cfg profile control)))
    = Ok item
    /\ FontSize item = Tab.TabViewFontSize.
Proof.
  eexists. split; [reflexivity |].
  assert (Hrun : forall s,
    FontSize (_tabViewItem (run cfg ops s)) = FontSize (_tabViewItem s)).
  { induction ops as [| op ops IH]; intros s; [reflexivity |].
    unfold run in *. simpl. rewrite IH. apply step_FontSize. }
  rewrite Hrun. reflexivity.
Qed.

(** ** The pane tree under the Tab's own methods *)

Lemma step_keepsTree (cfg : Config) (s : State) (op : Op) :
  keepsTree op = true -> _rootPane (step cfg s op) = _rootPane s.
Proof.
  destruct op; try discriminate; intros _;
    unfold_ops; simpl; break_match; reflexivity.
Qed.

(** X9.  [SetFocused], [UpdateIcon], [SetTabText], [Scroll] and the lambdas
    they queue never touch the pane tree: over any run of them the tree is
    the one before, so the focused control, the focused title and the focused
    profile are what they were. *)
Theorem Tab_methods_keep_tree (cfg : Config) (Title : TermControl -> hstring)
  (ops : list Op) (s : State) :
  forallb keepsTree ops = true ->
  _rootPane (run cfg ops s) = _rootPane s
  /\ fst (Tab.GetFocusedTerminalControl (run cfg ops s))
     = fst (Tab.GetFocusedTerminalControl s)
  /\ fst (Tab.GetFocusedTitle Title (run cfg ops s))
     = fst (Tab.GetFocusedTitle Title s)
  /\ fst (Tab.GetFocusedProfile (run cfg ops s))
     = fst (Tab.GetFocusedProfile s).
Proof.
  intros Hops.
  assert (Htree : _rootPane (run cfg ops s) = _rootPane s).
  { revert s. induction ops as [| op ops IH]; intros s; [reflexivity |].
    simpl in Hops. apply andb_true_iff in Hops as [Hop Hops].
    unfold run in *. simpl. rewrite (IH Hops). apply step_keepsTree. exact Hop. }
  split; [exact Htree |].
  unfold Tab.GetFocusedTerminalControl, Tab.GetFocusedTitle,
    Tab.GetFocusedProfile, RootPane.GetFocusedTerminalControl,
    RootPane.GetFocusedProfile, bind, get, ret. simpl.
  rewrite Htree. repeat split.
Qed.

Lemma Tab_methods_keep_tree_witness :
  _rootPane (run cfg0 [OpSetFocused true; OpUpdateIcon "a.png"%string;
                       OpScroll 2%Z; EnvPump; OpSetFocused false] tabThree)
  = _rootPane tabThree.
Proof.
  apply (proj1 (Tab_methods_keep_tree cfg0 (fun _ => EmptyString)
                  [OpSetFocused true; OpUpdateIcon "a.png"%string;
                   OpScroll 2%Z; EnvPump; OpSetFocused false] tabThree eq_refl)).
Defined.
